(** * http-client: tracing-header injection and response normalisation

    A shallow embedding of [src/index.ts] (class [BaseAPIService] and its
    helpers [randomHex], [generateTraceparent]) together with the properties
    of the header decision procedure installed as an axios request
    interceptor. *)

From Stdlib Require Import ZArith NArith List Bool Ascii String Lia.
From stdpp Require Import base strings gmap.

Local Open Scope string_scope.
Local Open Scope Z_scope.

(** Result of evaluating an expression that may raise. *)
Inductive Completion (A : Type) : Type :=
  | Normal (a : A)
  | Throw (error : string).
Arguments Normal {A} _.
Arguments Throw {A} _.

(** ** Host environment

    The interceptor is deterministic except for what it obtains from the
    host: random octets ([crypto.getRandomValues] or, failing that,
    [Math.random]), identifiers from the [uuid] package, and the active span
    of an optional OpenTelemetry runtime.  These are modelled as tapes read
    through cursors that advance with every draw. *)

(** The members every object has from [Object.prototype]. *)
Definition object_members : list string :=
  [ "constructor"; "hasOwnProperty"; "isPrototypeOf"; "propertyIsEnumerable";
    "toLocaleString"; "toString"; "valueOf"; "__proto__";
    "__defineGetter__"; "__defineSetter__"; "__lookupGetter__"; "__lookupSetter__" ].

(** What the header object of a request inherits.  [config.headers[name]]
    yields the own property [name] when there is one and otherwise the member
    the object inherits under that name, which is an object and therefore
    truthy: a member of [Object.prototype], or - for the instances of axios'
    header class that axios hands to interceptors - one of its methods
    ([set], [get], [has], ...).  Beyond [Object.prototype] the names depend
    on the object (an interceptor registered earlier may have replaced the
    instance by a plain object), so they are left open; the header names the
    interceptor spells out - [traceparent], [X-Trace-ID], [X-Source-Service]
    and the default [X-Transaction-ID] - are never among them. *)
Record Prototype : Type := mkPrototype {
  inherits : string -> bool;
  object_members_inherited : forallb inherits object_members = true;
  traceparent_own : inherits "traceparent" = false;
  trace_id_own : inherits "X-Trace-ID" = false;
  source_service_own : inherits "X-Source-Service" = false;
  transaction_id_own : inherits "X-Transaction-ID" = false
}.

(** Outcome of [otel.trace.getSpan(otel.context.active())] followed by
    [currentSpan.spanContext()], all inside one [try] block. *)
Inductive SpanProbe : Type :=
  | ProbeThrows
  | ProbeNoSpan
  | ProbeSpan (traceId : string).

Record World : Type := mkWorld {
  (** [Some tape] when [typeof crypto !== 'undefined' && crypto.getRandomValues];
      [tape n] is the n-th octet it delivers. *)
  crypto : option (nat -> Z);
  (** n-th value of [Math.floor(Math.random() * 256)]. *)
  math_random_256 : nat -> Z;
  (** n-th string returned by [uuidv4()]. *)
  uuid_tape : nat -> string;
  (** whether [getOTelAPI()] finds an OpenTelemetry API
      ([globalThis.__otel_api] or [require('@opentelemetry/api')]). *)
  otel_installed : bool;
  (** n-th outcome of the active-span query. *)
  span_tape : nat -> SpanProbe;
  (** what the header object of the request at hand inherits. *)
  header_prototype : Prototype;
  octets_drawn : nat;
  uuids_drawn : nat;
  spans_probed : nat
}.

(** ** A state monad over the host *)

Definition M (A : Type) : Type := World -> A * World.

#[global] Instance M_ret : MRet M := fun A (a : A) w => (a, w).

#[global] Instance M_bind : MBind M := fun A B (k : A -> M B) (m : M A) w =>
  let (a, w') := m w in k a w'.

Definition advance_octets (n : nat) (w : World) : World :=
  mkWorld (crypto w) (math_random_256 w) (uuid_tape w) (otel_installed w) (span_tape w)
          (header_prototype w)
          (octets_drawn w + n) (uuids_drawn w) (spans_probed w).

Definition advance_uuids (w : World) : World :=
  mkWorld (crypto w) (math_random_256 w) (uuid_tape w) (otel_installed w) (span_tape w)
          (header_prototype w)
          (octets_drawn w) (S (uuids_drawn w)) (spans_probed w).

Definition advance_spans (w : World) : World :=
  mkWorld (crypto w) (math_random_256 w) (uuid_tape w) (otel_installed w) (span_tape w)
          (header_prototype w)
          (octets_drawn w) (uuids_drawn w) (S (spans_probed w)).

(** ** [Uint8Array] and hexadecimal rendering *)

(** Storing into a [Uint8Array] element wraps modulo 256. *)
Definition toUint8 (z : Z) : Z := z mod 256.

(** [new Uint8Array(n)]: [n] zero octets. *)
Definition new_Uint8Array (n : nat) : list Z := replicate n 0.

(** [crypto.getRandomValues(bytes)] overwrites every element; a buffer of
    more than 65536 octets is refused with a [QuotaExceededError]. *)
Definition getRandomValues (tape : nat -> Z) (base : nat) (bytes : list Z)
  : Completion (list Z) :=
  if (65536 <? N.of_nat (length bytes))%N then Throw "QuotaExceededError"
  else Normal (imap (fun i _ => toUint8 (tape (base + i)%nat)) bytes).

(** [for (let i = 0; i < bytes.length; i++) bytes[i] = Math.floor(Math.random() * 256)],
    started at index [i] with [todo] iterations left. *)
Fixpoint fill_loop (tape : nat -> Z) (base i todo : nat) (bytes : list Z) : list Z :=
  match todo with
  | O => bytes
  | S todo' => fill_loop tape base (S i) todo' (<[i := toUint8 (tape (base + i)%nat)]> bytes)
  end.

Definition hexDigit (d : Z) : ascii :=
  match d with
  | 0 => "0" | 1 => "1" | 2 => "2" | 3 => "3" | 4 => "4" | 5 => "5" | 6 => "6" | 7 => "7"
  | 8 => "8" | 9 => "9" | 10 => "a" | 11 => "b" | 12 => "c" | 13 => "d" | 14 => "e"
  | _ => "f"
  end%char.

Fixpoint toString16_aux (fuel : nat) (n : Z) (acc : string) : string :=
  match fuel with
  | O => acc
  | S fuel' =>
      let acc' := String (hexDigit (n mod 16)) acc in
      if n / 16 =? 0 then acc' else toString16_aux fuel' (n / 16) acc'
  end.

(** [b.toString(16)] for a non-negative integer [b]. *)
Definition toString16 (n : Z) : string :=
  toString16_aux (S (Z.to_nat (Z.log2 n))) n "".

Fixpoint repeat_char (c : ascii) (n : nat) : string :=
  match n with
  | O => ""
  | S n' => String c (repeat_char c n')
  end.

(** [s.padStart(targetLength, c)] for a one-character filler. *)
Definition padStart (targetLength : nat) (c : ascii) (s : string) : string :=
  repeat_char c (targetLength - String.length s) +:+ s.

Definition renderByte (b : Z) : string := padStart 2 "0" (toString16 b).

(** [parts.join('')]. *)
Fixpoint join_empty (parts : list string) : string :=
  match parts with
  | [] => ""
  | p :: rest => p +:+ join_empty rest
  end.

(** ** [randomHex] and [generateTraceparent] *)

(** [randomHex(length)] for a non-negative integer [length], which counts
    hexadecimal characters: the octet buffer has [length / 2] elements (the
    typed-array constructor truncates a fractional length).  The call raises
    what [crypto.getRandomValues] raises; nothing has been drawn then.
    (Memory is not modelled: the buffer is taken to be allocated, which for
    the lengths considered below - at most 65536 octets - it is.) *)
Definition randomHex (length : N) : M (Completion string) := fun w =>
  let n := N.to_nat (length / 2) in
  let bytes := new_Uint8Array n in
  let filled :=
    match crypto w with
    | Some tape => getRandomValues tape (octets_drawn w) bytes
    | None => Normal (fill_loop (math_random_256 w) (octets_drawn w) 0 n bytes)
    end in
  match filled with
  | Normal bytes' => (Normal (join_empty (map renderByte bytes')), advance_octets n w)
  | Throw error => (Throw error, w)
  end.

(** An evaluation that does not raise, and its value. *)
Definition returns {A : Type} (c : Completion A) : Prop :=
  match c with
  | Normal _ => True
  | Throw _ => False
  end.

Definition value_of {A : Type} (c : Completion A) : returns c -> A :=
  match c with
  | Normal a => fun _ => a
  | Throw _ => fun impossible => match impossible with end
  end.

(** A call that cannot raise, as a computation of its value. *)
Definition certainly {A : Type} (m : M (Completion A)) (safe : forall w, returns (m w).1)
  : M A :=
  fun w => (value_of (m w).1 (safe w), (m w).2).

(** Within the quota of [crypto.getRandomValues], [randomHex] returns. *)
Definition randomHex_returns (length : N) (within : (length / 2 <=? 65536)%N = true)
    (w : World) : returns (randomHex length w).1.
Proof.
  unfold randomHex, getRandomValues, new_Uint8Array.
  rewrite length_replicate, N2Nat.id.
  apply N.leb_le in within.
  destruct (crypto w); [|exact I].
  destruct (N.ltb_spec 65536 (length / 2)) as [Hgt|_]; [lia | exact I].
Qed.

Record Trace : Type := mkTrace { traceparent : string; traceId : string }.

(** [randomHex(32)] and [randomHex(16)] stay within the quota. *)
Definition generateTraceparent : M Trace :=
  let version := "00" in
  traceId ← certainly (randomHex 32) (randomHex_returns 32 eq_refl);
  parentId ← certainly (randomHex 16) (randomHex_returns 16 eq_refl);
  let flags := "01" in
  mret (mkTrace (version +:+ "-" +:+ traceId +:+ "-" +:+ parentId +:+ "-" +:+ flags) traceId).

(** [uuidv4()] from the [uuid] package: the next identifier on the tape. *)
Definition uuidv4 : M string := fun w =>
  (uuid_tape w (uuids_drawn w), advance_uuids w).

(** The body of the [try] block: query the active span once. *)
Definition activeSpan : M SpanProbe := fun w =>
  (span_tape w (spans_probed w), advance_spans w).

(** ** Configuration and requests *)

(** The header object is a finite map from names, exactly as written, to
    string values (the own properties of [config.headers], typed as in
    [RequestOptions.headers]); what it inherits is the [header_prototype]
    of the state it is processed in. *)
Record InternalAxiosRequestConfig : Type := mkRequest {
  url : string;
  headers : option (gmap string string)
}.

(** Values of type [unknown] flowing through the response transforms. *)
#[warnings="-register-all"]
Inductive JSValue : Type :=
  | JUndefined
  | JNull
  | JBool (b : bool)
  | JNumber (z : Z)
  | JString (s : string)
  | JArray (items : list JSValue)
  | JObject (fields : list (string * JSValue)).

Definition Transformer : Type := JSValue -> Completion JSValue.

(** [axiosConfig.transformResponse]: absent, one function, or an array. *)
Inductive TransformOption : Type :=
  | NoTransform
  | OneTransform (f : Transformer)
  | ManyTransforms (fs : list Transformer).

Record AxiosRequestConfig : Type := mkAxiosConfig {
  baseURL : option string;
  transformResponse : TransformOption
}.

Record AxiosInstance : Type := mkInstance {
  (** request interceptors in registration order *)
  request_interceptors : list (InternalAxiosRequestConfig -> M InternalAxiosRequestConfig);
  defaults_transformResponse : list Transformer
}.

Record BaseAPIServiceConfig : Type := mkConfig {
  axiosConfig : AxiosRequestConfig;
  setupHooks : option (AxiosInstance -> AxiosInstance);
  transactionIdHeader : option string;
  disableTransactionId : option bool;
  enableTraceContext : option bool;
  useTraceIdAsTransactionId : option bool;
  serviceName : option string
}.

(** JavaScript truthiness of an optional string: [undefined] and the empty
    string are falsy. *)
Definition truthy (v : option string) : bool :=
  match v with
  | Some s => negb (String.eqb s "")
  | None => false
  end.

(** Truthiness of [headers[name]]: an own property counts by its value, a
    name without own property by whether a member is inherited under it. *)
Definition header_truthy (p : Prototype) (h : gmap string string) (name : string) : bool :=
  match h !! name with
  | Some value => negb (String.eqb value "")
  | None => inherits p name
  end.

(** The condition [config.headers[name]] where the interceptor evaluates it. *)
Definition header_is_set (h : gmap string string) (name : string) : M bool := fun w =>
  (header_truthy (header_prototype w) h name, w).

(** ** The request interceptor *)

Section Interceptor.

(** The constructor's destructured locals, defaults applied. *)
Variable transactionIdHeader_ : string.
Variables disableTransactionId_ enableTraceContext_ useTraceIdAsTransactionId_ : bool.
Variable serviceName_ : option string.
(** [otel = getOTelAPI()], truthy or not. *)
Variable otel : bool.

(** "Use active OTel span if available": yields the local [traceId]
    and the header object after this block. *)
Definition useActiveSpan (headers0 : gmap string string)
  : M (option string * gmap string string) :=
  if otel then
    probe ← activeSpan;
    match probe with
    | ProbeSpan spanTraceId =>
        present ← header_is_set headers0 "X-Trace-ID";
        mret (Some spanTraceId,
              if enableTraceContext_ && negb present
              then <["X-Trace-ID" := spanTraceId]> headers0
              else headers0)
    | ProbeNoSpan | ProbeThrows => mret (None, headers0)
    end
  else mret (None, headers0).

(** "Generate traceparent if enabled"; [traceId = traceId ?? trace.traceId]. *)
Definition injectTraceparent (traceId1 : option string) (headers1 : gmap string string)
  : M (option string * gmap string string) :=
  present ← header_is_set headers1 "traceparent";
  if enableTraceContext_ && negb present
  then
    trace ← generateTraceparent;
    mret (Some (default (traceId trace) traceId1),
          <["traceparent" := traceparent trace]> headers1)
  else mret (traceId1, headers1).

(** "Inject Transaction ID":
    [useTraceIdAsTransactionId && traceId ? traceId : uuidv4()]. *)
Definition injectTransactionId (traceId2 : option string) (headers2 : gmap string string)
  : M (gmap string string) :=
  present ← header_is_set headers2 transactionIdHeader_;
  if negb disableTransactionId_ && negb present
  then
    value ← (if useTraceIdAsTransactionId_ && truthy traceId2
             then mret (default "" traceId2)
             else uuidv4);
    mret (<[transactionIdHeader_ := value]> headers2)
  else mret headers2.

(** "Inject Service Name". *)
Definition injectServiceName (headers3 : gmap string string) : M (gmap string string) :=
  present ← header_is_set headers3 "X-Source-Service";
  mret (if truthy serviceName_ && negb present
        then <["X-Source-Service" := default "" serviceName_]> headers3
        else headers3).

Definition requestInterceptor (config : InternalAxiosRequestConfig)
  : M InternalAxiosRequestConfig :=
  (* config.headers = config.headers ?? {} *)
  let headers0 : gmap string string := default ∅ (headers config) in
  '(traceId1, headers1) ← useActiveSpan headers0;
  '(traceId2, headers2) ← injectTraceparent traceId1 headers1;
  headers3 ← injectTransactionId traceId2 headers2;
  headers4 ← injectServiceName headers3;
  mret (mkRequest (url config) (Some headers4)).

End Interceptor.

(** ** The constructor *)

(** [getOTelAPI()]. *)
Definition getOTelAPI (w : World) : bool := otel_installed w.

(** The two overloads: an object configuration, or the deprecated
    positional [(axiosConfig, setupHooks)]. *)
Inductive ConstructorArgs : Type :=
  | ObjectConfig (config : BaseAPIServiceConfig)
  | LegacyArgs (axiosConfig : AxiosRequestConfig)
               (setupHooks : option (AxiosInstance -> AxiosInstance)).

Definition resolvedConfig (args : ConstructorArgs) : BaseAPIServiceConfig :=
  match args with
  | ObjectConfig config => config
  | LegacyArgs axiosConfig hooks => mkConfig axiosConfig hooks None None None None None
  end.

(** [axios.create(axiosConfig)]: a fresh instance, no interceptors. *)
Definition axios_create (axiosConfig : AxiosRequestConfig) : AxiosInstance :=
  mkInstance []
    match transformResponse axiosConfig with
    | NoTransform => []
    | OneTransform f => [f]
    | ManyTransforms fs => fs
    end.

(** [instance.interceptors.request.use(f)]. *)
Definition interceptors_request_use
    (f : InternalAxiosRequestConfig -> M InternalAxiosRequestConfig)
    (inst : AxiosInstance) : AxiosInstance :=
  mkInstance (request_interceptors inst ++ [f])%list (defaults_transformResponse inst).

Definition shouldAddInterceptor (disableTransactionId enableTraceContext : bool)
    (serviceName : option string) : bool :=
  negb disableTransactionId || enableTraceContext || truthy serviceName.

(** axios applies response transforms left to right, feeding each result
    to the next. *)
Fixpoint transformData (fns : list Transformer) (data : JSValue) : Completion JSValue :=
  match fns with
  | [] => Normal data
  | fn :: rest =>
      match fn data with
      | Normal data' => transformData rest data'
      | Throw e => Throw e
      end
  end.

(** axios runs request interceptors last-registered first, each on the
    configuration the one before it returned. *)
Fixpoint run_chain (chain : list (InternalAxiosRequestConfig -> M InternalAxiosRequestConfig))
    (config : InternalAxiosRequestConfig) : M InternalAxiosRequestConfig :=
  match chain with
  | [] => mret config
  | f :: rest => config' ← f config; run_chain rest config'
  end.

Definition dispatch (inst : AxiosInstance) (config : InternalAxiosRequestConfig)
  : M InternalAxiosRequestConfig :=
  run_chain (rev (request_interceptors inst)) config.

Record BaseAPIService : Type := mkService {
  instance : AxiosInstance;
  this_transactionIdHeader : string
}.

Section Service.

(** The host's [JSON.parse]; [Throw] stands for its [SyntaxError]. *)
Variable JSON_parse : string -> Completion JSValue.

Definition defaultTransform (data : JSValue) : Completion JSValue :=
  match data with
  | JString text =>
      match JSON_parse text with
      | Normal parsed => Normal parsed
      | Throw _ => Normal data
      end
  | _ => Normal data
  end.

Definition userTransforms (axiosConfig : AxiosRequestConfig) : list Transformer :=
  match transformResponse axiosConfig with
  | NoTransform => []
  | OneTransform f => [f]
  | ManyTransforms fs => fs
  end.

(** The instance as the constructor has built it when it reaches
    "Custom Interceptors", before [hooks(this.instance)]. *)
Definition core_instance (args : ConstructorArgs) (w : World) : AxiosInstance :=
  let cfg := resolvedConfig args in
  let transactionIdHeader_ := default "X-Transaction-ID" (transactionIdHeader cfg) in
  let disableTransactionId_ := default false (disableTransactionId cfg) in
  let enableTraceContext_ := default false (enableTraceContext cfg) in
  let useTraceIdAsTransactionId_ := default false (useTraceIdAsTransactionId cfg) in
  let serviceName_ := serviceName cfg in
  let inst0 := axios_create (axiosConfig cfg) in
  let inst1 :=
    if shouldAddInterceptor disableTransactionId_ enableTraceContext_ serviceName_
    then
      let otel := getOTelAPI w in
      interceptors_request_use
        (requestInterceptor transactionIdHeader_ disableTransactionId_
           enableTraceContext_ useTraceIdAsTransactionId_ serviceName_ otel)
        inst0
    else inst0 in
  mkInstance (request_interceptors inst1)
             (defaultTransform :: userTransforms (axiosConfig cfg)).

Definition new_BaseAPIService (args : ConstructorArgs) (w : World) : BaseAPIService :=
  let cfg := resolvedConfig args in
  let inst := core_instance args w in
  mkService
    match setupHooks cfg with
    | Some hooks => hooks inst
    | None => inst
    end
    (default "X-Transaction-ID" (transactionIdHeader cfg)).

Definition createHttpClient (config : BaseAPIServiceConfig) (w : World) : BaseAPIService :=
  new_BaseAPIService (ObjectConfig config) w.

End Service.

(** ** Shapes of identifiers

    The regular expressions of the specification only use literal
    characters, the class [[0-9a-f]] and small explicit classes, each
    repeated a fixed number of times; a pattern is a list of one-character
    classes and matching is anchored at both ends. *)

Inductive CharClass : Type :=
  | Lit (c : ascii)
  | LowerHex
  | OneOf (cs : list ascii).

Definition isLowerHex (c : ascii) : bool :=
  let n := nat_of_ascii c in
  ((48 <=? n)%nat && (n <=? 57)%nat) || ((97 <=? n)%nat && (n <=? 102)%nat).

Definition class_accepts (cl : CharClass) (c : ascii) : bool :=
  match cl with
  | Lit c' => Ascii.eqb c c'
  | LowerHex => isLowerHex c
  | OneOf cs => existsb (Ascii.eqb c) cs
  end.

Fixpoint matches (pat : list CharClass) (s : string) : bool :=
  match pat, s with
  | [], EmptyString => true
  | cl :: pat', String c s' => class_accepts cl c && matches pat' s'
  | _, _ => false
  end.

Definition lits (s : string) : list CharClass := Lit <$> list_ascii_of_string s.

(** [^00-[0-9a-f]{32}-[0-9a-f]{16}-01$] *)
Definition traceparent_pattern : list CharClass :=
  (lits "00-" ++ replicate 32 LowerHex ++ lits "-" ++ replicate 16 LowerHex ++ lits "-01")%list.

(** [xxxxxxxx-xxxx-4xxx-[89ab]xxx-xxxxxxxxxxxx] *)
Definition uuid_v4_pattern : list CharClass :=
  (replicate 8 LowerHex ++ lits "-" ++ replicate 4 LowerHex ++ lits "-4"
   ++ replicate 3 LowerHex ++ lits "-" ++ [OneOf ["8"; "9"; "a"; "b"]%char]
   ++ replicate 3 LowerHex ++ lits "-" ++ replicate 12 LowerHex)%list.

(** ** Vocabulary of the statements *)

(** The header object of a request configuration, [config.headers ?? {}]:
    what an interceptor is given and what it hands on.  (What axios makes of
    it afterwards, on the way to the transport, is not part of it.) *)
Definition sent_headers (config : InternalAxiosRequestConfig) : gmap string string :=
  default ∅ (headers config).

(** The tape [randomHex] reads, and the [n] octets its buffer holds once
    filled. *)
Definition entropy (w : World) : nat -> Z :=
  match crypto w with
  | Some tape => tape
  | None => math_random_256 w
  end.

Definition octets (w : World) (n : nat) : list Z :=
  (fun i => toUint8 (entropy w (octets_drawn w + i)%nat)) <$> seq 0 n.


(** The two hexadecimal digits of an octet, high nibble first. *)
Definition two_hex (b : Z) : string :=
  String (hexDigit (b / 16)) (String (hexDigit (b mod 16)) "").

(** The rendering [Array.from(bytes, b => ...).join('')] of a buffer. *)
Definition hex_of (bs : list Z) : string := join_empty (renderByte <$> bs).

(** The trace id of the active span as the interceptor obtains it:
    absent without an OpenTelemetry API, without an active span, or when
    the query raises. *)
Definition activeTraceId (otel : bool) (w : World) : option string :=
  if otel then
    match span_tape w (spans_probed w) with
    | ProbeSpan t => Some t
    | ProbeNoSpan | ProbeThrows => None
    end
  else None.

(** The local [traceId] once the trace-context block has run: what the
    transaction-id block consults. *)
Definition observedTraceId (en otel : bool) (config : InternalAxiosRequestConfig)
    (w : World) : option string :=
  let r1 := useActiveSpan en otel (sent_headers config) w in
  (injectTraceparent en r1.1.1 r1.1.2 r1.2).1.1.

(** The contract of the [uuid] package: version-4 identifiers. *)
Definition uuid_contract (w : World) : Prop :=
  forall n, matches uuid_v4_pattern (uuid_tape w n) = true.

(** The guarded assignment every block of the interceptor performs:
    [if (c && !headers[key]) headers[key] = value]. *)
Definition set_if_falsy (p : Prototype) (c : bool) (key value : string)
    (h : gmap string string) : gmap string string :=
  if c && negb (header_truthy p h key) then <[key := value]> h else h.

(** A property of header objects that no guarded assignment to [key] breaks. *)
Definition stable (p : Prototype) (P : gmap string string -> Prop) (key : string) : Prop :=
  forall c x h, P h -> P (set_if_falsy p c key x h).

(** A relation between the header objects of two runs that guarded
    assignments to [key] respect: the guard reads the same truth value on
    both sides and the assignment keeps the two related. *)
Definition respects (p : Prototype) (R : gmap string string -> gmap string string -> Prop)
    (key : string) : Prop :=
  forall a b, R a b ->
    header_truthy p a key = header_truthy p b key
    /\ forall x, R (<[key := x]> a) (<[key := x]> b).

(** Two header objects that differ at most in that the first carries
    [key] with the empty string where the second has no [key] at all. *)
Definition blank_at (key : string) (a b : gmap string string) : Prop :=
  a = b \/ (a !! key = Some "" /\ b = delete key a).

(** The condition under which the interceptor assigns header [h] when a
    request arrives without it. *)
Definition injection_enabled (txn : string) (dis en : bool) (svc : option string)
    (otel : bool) (w : World) (h : string) : Prop :=
  (h = txn /\ dis = false)
  \/ (h = "traceparent" /\ en = true)
  \/ (h = "X-Source-Service" /\ truthy svc = true)
  \/ (h = "X-Trace-ID" /\ en = true /\ otel = true
      /\ exists t, span_tape w (spans_probed w) = ProbeSpan t).

(** ASCII case folding, as HTTP compares header names. *)
Definition lower_ascii (c : ascii) : ascii :=
  let n := nat_of_ascii c in
  if (65 <=? n)%nat && (n <=? 90)%nat then ascii_of_nat (n + 32) else c.

Fixpoint toLowerCase (s : string) : string :=
  match s with
  | EmptyString => EmptyString
  | String c s' => String (lower_ascii c) (toLowerCase s')
  end.

(** ** Sample hosts and requests *)

(** Methods of axios' header class. *)
Definition axios_header_methods : list string :=
  [ "set"; "get"; "has"; "delete"; "clear"; "normalize"; "concat"; "toJSON" ].

(** What an instance of axios' header class inherits. *)
Definition sample_prototype : Prototype :=
  mkPrototype (fun name => existsb (String.eqb name) (object_members ++ axios_header_methods)%list)
              eq_refl eq_refl eq_refl eq_refl eq_refl.

(** A host with [crypto], without an OpenTelemetry API. *)
Definition sample_world : World :=
  mkWorld (Some (fun n => Z.of_nat (17 * n + 250))) (fun n => Z.of_nat (3 * n))
          (fun _ => "3fa85f64-5717-4562-b3fc-2c963f66afa6") false (fun _ => ProbeNoSpan)
          sample_prototype 0 0 0.

(** A host with an OpenTelemetry runtime whose active span never changes. *)
Definition span_world : World :=
  mkWorld (Some (fun n => Z.of_nat (29 * n + 7))) (fun n => Z.of_nat n)
          (fun n => if Nat.even n then "3fa85f64-5717-4562-b3fc-2c963f66afa6"
                    else "9b2e4c1a-0d3f-4a6b-8c7d-5e4f3a2b1c0d")
          true (fun _ => ProbeSpan "0af7651916cd43dd8448eb211c80319c")
          sample_prototype 0 0 0.

(** A host without [crypto] whose OpenTelemetry runtime reports a span
    with an empty trace id. *)
Definition empty_span_world : World :=
  mkWorld None (fun n => Z.of_nat (5 * n + 1))
          (fun _ => "3fa85f64-5717-4562-b3fc-2c963f66afa6")
          true (fun _ => ProbeSpan "") sample_prototype 0 0 0.

(** A client with every option left at its default. *)
Definition default_interceptor : InternalAxiosRequestConfig -> M InternalAxiosRequestConfig :=
  requestInterceptor "X-Transaction-ID" false false false None false.

(** The trace-context value a caller of the test suite supplies itself. *)
Definition custom_traceparent : string :=
  "00-custom12345678901234567890123456-custom12345678-01".

(** ** A reader for a fragment of JSON

    [JSON.parse] belongs to the host.  The statements about the response
    transform hold for any such function; this reader (literals, integers,
    strings without escapes, arrays and objects) instantiates it where a
    statement is evaluated on a concrete body. *)

Definition is_space (c : ascii) : bool :=
  match nat_of_ascii c with
  | 32%nat | 9%nat | 10%nat | 13%nat => true
  | _ => false
  end.

Definition is_digit (c : ascii) : bool :=
  let n := nat_of_ascii c in (48 <=? n)%nat && (n <=? 57)%nat.

Definition quote : ascii := "034"%char.

Fixpoint skip_ws (s : list ascii) : list ascii :=
  match s with
  | c :: rest => if is_space c then skip_ws rest else s
  | [] => []
  end.

Fixpoint read_digits (s : list ascii) (acc : Z) : Z * list ascii :=
  match s with
  | c :: rest =>
      if is_digit c then read_digits rest (10 * acc + Z.of_nat (nat_of_ascii c - 48))
      else (acc, s)
  | [] => (acc, [])
  end.

Fixpoint read_string (s : list ascii) (acc : list ascii) : option (string * list ascii) :=
  match s with
  | c :: rest =>
      if Ascii.eqb c quote then Some (string_of_list_ascii (rev acc), rest)
      else if Ascii.eqb c "092"%char then None
      else read_string rest (c :: acc)
  | [] => None
  end.

Fixpoint read_value (fuel : nat) (s : list ascii) : option (JSValue * list ascii) :=
  match fuel with
  | O => None
  | S fuel' =>
      match skip_ws s with
      | "n" :: "u" :: "l" :: "l" :: rest => Some (JNull, rest)
      | "t" :: "r" :: "u" :: "e" :: rest => Some (JBool true, rest)
      | "f" :: "a" :: "l" :: "s" :: "e" :: rest => Some (JBool false, rest)
      | "[" :: rest =>
          match skip_ws rest with
          | "]" :: rest' => Some (JArray [], rest')
          | _ =>
              match read_items fuel' rest with
              | Some (items, rest') => Some (JArray items, rest')
              | None => None
              end
          end
      | "{" :: rest =>
          match skip_ws rest with
          | "}" :: rest' => Some (JObject [], rest')
          | _ =>
              match read_fields fuel' rest with
              | Some (fields, rest') => Some (JObject fields, rest')
              | None => None
              end
          end
      | "-" :: c :: rest =>
          if is_digit c
          then let (n, rest') := read_digits (c :: rest) 0 in Some (JNumber (- n), rest')
          else None
      | c :: rest =>
          if Ascii.eqb c quote then
            match read_string rest [] with
            | Some (text, rest') => Some (JString text, rest')
            | None => None
            end
          else if is_digit c
          then let (n, rest') := read_digits (c :: rest) 0 in Some (JNumber n, rest')
          else None
      | [] => None
      end
  end%char
with read_items (fuel : nat) (s : list ascii) : option (list JSValue * list ascii) :=
  match fuel with
  | O => None
  | S fuel' =>
      match read_value fuel' s with
      | Some (item, rest) =>
          match skip_ws rest with
          | "," :: rest' =>
              match read_items fuel' rest' with
              | Some (items, rest'') => Some (item :: items, rest'')
              | None => None
              end
          | "]" :: rest' => Some ([item], rest')
          | _ => None
          end
      | None => None
      end
  end%char
with read_fields (fuel : nat) (s : list ascii)
  : option (list (string * JSValue) * list ascii) :=
  match fuel with
  | O => None
  | S fuel' =>
      match skip_ws s with
      | c :: rest =>
          if Ascii.eqb c quote then
            match read_string rest [] with
            | Some (key, rest1) =>
                match skip_ws rest1 with
                | ":" :: rest2 =>
                    match read_value fuel' rest2 with
                    | Some (value, rest3) =>
                        match skip_ws rest3 with
                        | "," :: rest4 =>
                            match read_fields fuel' rest4 with
                            | Some (fields, rest5) => Some ((key, value) :: fields, rest5)
                            | None => None
                            end
                        | "}" :: rest4 => Some ([(key, value)], rest4)
                        | _ => None
                        end
                    | None => None
                    end
                | _ => None
                end
            | None => None
            end
          else None
      | [] => None
      end
  end%char.

Definition read_json (text : string) : Completion JSValue :=
  let s := list_ascii_of_string text in
  match read_value (S (length s)) s with
  | Some (value, rest) =>
      match skip_ws rest with
      | [] => Normal value
      | _ => Throw "SyntaxError"
      end
  | None => Throw "SyntaxError"
  end.

(** The body [{"id":1}] of the specification's example. *)
Definition id_1_body : string :=
  String "{" (String quote ("id" +:+ String quote ":1}")).

(** A caller transform that wraps whatever it receives in an array. *)
Definition wrap_in_array : Transformer := fun data => Normal (JArray [data]).

(** Transaction id disabled, nothing else configured. *)
Definition quiet_config : BaseAPIServiceConfig :=
  mkConfig (mkAxiosConfig (Some "https://api.test.com") (OneTransform wrap_in_array))
           None None (Some true) None None None.

(** ** Further vocabulary *)

(** The four header names the interceptor may assign. *)
Definition managed_names (txn : string) : gset string :=
  {[ txn; "traceparent"; "X-Trace-ID"; "X-Source-Service" ]}.

(** Two host states that differ at most in their cursors. *)
Definition same_tapes (w w' : World) : Prop :=
  crypto w' = crypto w /\ math_random_256 w' = math_random_256 w
  /\ uuid_tape w' = uuid_tape w /\ otel_installed w' = otel_installed w
  /\ span_tape w' = span_tape w.





(** A hook interceptor that sets the [Authorization] header, as in the
    usage example of the class. *)
Definition auth_interceptor (config : InternalAxiosRequestConfig)
  : M InternalAxiosRequestConfig :=
  mret (mkRequest (url config)
          (Some (<["Authorization" := "Bearer token"]> (sent_headers config)))).

Definition auth_config : BaseAPIServiceConfig :=
  mkConfig (mkAxiosConfig (Some "/api") NoTransform)
           (Some (interceptors_request_use auth_interceptor))
           None None (Some true) (Some true) (Some "MY-FRONTEND").

(** * Properties *)

(** ** Filling the octet buffer *)

Lemma getRandomValues_fresh tape base n :
  getRandomValues tape base (new_Uint8Array n)
  = if (65536 <? N.of_nat n)%N then Throw "QuotaExceededError"
    else Normal ((fun i => toUint8 (tape (base + i)%nat)) <$> seq 0 n).
Proof.
  unfold getRandomValues, new_Uint8Array.
  rewrite (imap_seq_0 (replicate n 0) (fun i => toUint8 (tape (base + i)%nat))).
  by rewrite length_replicate.
Qed.

Lemma fill_loop_spec tape base todo : forall i bytes,
  length bytes = (i + todo)%nat ->
  fill_loop tape base i todo bytes
  = (take i bytes ++ ((fun j => toUint8 (tape (base + j)%nat)) <$> seq i todo))%list.
Proof.
  induction todo as [|todo IH]; intros i bytes Hlen; simpl.
  - rewrite app_nil_r, take_ge; [done | lia].
  - rewrite IH by (rewrite length_insert; lia).
    rewrite (take_S_r _ i (toUint8 (tape (base + i)%nat))).
    + rewrite take_insert_ge by lia. by rewrite <- app_assoc.
    + apply list_lookup_insert_eq. lia.
Qed.

Lemma fill_loop_fresh tape base n :
  fill_loop tape base 0 n (new_Uint8Array n)
  = (fun i => toUint8 (tape (base + i)%nat)) <$> seq 0 n.
Proof.
  rewrite fill_loop_spec by (unfold new_Uint8Array; by rewrite length_replicate).
  by rewrite take_0.
Qed.

(** Within the quota the call returns the rendering of the octets at the
    cursor. *)
Lemma randomHex_unfold len w :
  (len / 2 <= 65536)%N ->
  randomHex len w
  = (Normal (join_empty (renderByte <$> octets w (N.to_nat (len / 2)))),
     advance_octets (N.to_nat (len / 2)) w).
Proof.
  intros Hq. unfold randomHex, octets, entropy.
  destruct (crypto w) as [tape|].
  - rewrite getRandomValues_fresh, N2Nat.id.
    destruct (N.ltb_spec 65536 (len / 2)) as [Hgt|_]; [lia | done].
  - by rewrite fill_loop_fresh.
Qed.


Lemma length_octets w n : length (octets w n) = n.
Proof. unfold octets. by rewrite length_fmap, length_seq. Qed.

Lemma octets_range w n : Forall (fun b => 0 <= b < 256) (octets w n).
Proof.
  unfold octets. apply Forall_fmap, Forall_forall. intros i _. simpl.
  unfold toUint8. apply Z.mod_pos_bound. lia.
Qed.

(** ** Rendering one octet *)

Lemma renderByte_table :
  forallb (fun n => String.eqb (renderByte (Z.of_nat n)) (two_hex (Z.of_nat n))) (seq 0 256)
  = true.
Proof. vm_compute. reflexivity. Qed.

Lemma renderByte_two_hex b : 0 <= b < 256 -> renderByte b = two_hex b.
Proof.
  intros Hb.
  pose proof (proj1 (forallb_forall _ _) renderByte_table (Z.to_nat b)) as H.
  cbv beta in H. rewrite Z2Nat.id in H by lia.
  apply String.eqb_eq, H, in_seq. lia.
Qed.

Lemma hexDigit_lower d : 0 <= d < 16 -> isLowerHex (hexDigit d) = true.
Proof.
  intros Hd.
  assert (Hcases : d = 0 \/ d = 1 \/ d = 2 \/ d = 3 \/ d = 4 \/ d = 5 \/ d = 6 \/ d = 7
          \/ d = 8 \/ d = 9 \/ d = 10 \/ d = 11 \/ d = 12 \/ d = 13 \/ d = 14 \/ d = 15)
    by lia.
  repeat (destruct Hcases as [->|Hcases]; [reflexivity|]). by subst.
Qed.

Lemma renderByte_matches b :
  0 <= b < 256 -> matches [LowerHex; LowerHex] (renderByte b) = true.
Proof.
  intros Hb. rewrite renderByte_two_hex by done. simpl.
  rewrite !hexDigit_lower; [done | |].
  - apply Z.mod_pos_bound. lia.
  - split; [apply Z.div_pos; lia | apply Z.div_lt_upper_bound; lia].
Qed.

(** ** Hexadecimal strings *)

Lemma matches_app p1 : forall s1 p2 s2,
  matches p1 s1 = true -> matches p2 s2 = true ->
  matches (p1 ++ p2) (s1 +:+ s2) = true.
Proof.
  induction p1 as [|cl p1 IH]; intros [|c s1] p2 s2 H1 H2; simpl in *; try done.
  apply andb_true_iff in H1 as [Hc H1]. rewrite Hc. simpl. by apply IH.
Qed.

Lemma hex_of_matches bs :
  Forall (fun b => 0 <= b < 256) bs ->
  matches (replicate (2 * length bs) LowerHex) (hex_of bs) = true.
Proof.
  induction 1 as [|b bs Hb _ IH]; [done|].
  change (hex_of (b :: bs)) with (renderByte b +:+ hex_of bs).
  replace (2 * length (b :: bs))%nat with (2 + 2 * length bs)%nat by (simpl; lia).
  rewrite replicate_add. apply matches_app; [by apply renderByte_matches | done].
Qed.

Lemma matches_length pat : forall s, matches pat s = true -> String.length s = length pat.
Proof.
  induction pat as [|cl pat IH]; intros [|c s] H; simpl in *; try done.
  apply andb_true_iff in H as [_ H]. f_equal. by apply IH.
Qed.

Lemma hex_of_length bs :
  Forall (fun b => 0 <= b < 256) bs -> String.length (hex_of bs) = (2 * length bs)%nat.
Proof.
  intros H. rewrite (matches_length _ _ (hex_of_matches bs H)).
  by rewrite length_replicate.
Qed.

Lemma randomHex_value len w :
  (len / 2 <= 65536)%N ->
  fst (randomHex len w) = Normal (hex_of (octets w (N.to_nat (len / 2)))).
Proof. intros Hq. by rewrite randomHex_unfold. Qed.


Lemma value_of_Normal {A : Type} (c : Completion A) (safe : returns c) (a : A) :
  c = Normal a -> value_of c safe = a.
Proof. intros Hc. destruct c as [a'|e]; [by injection Hc | done]. Qed.

Lemma certainly_run {A : Type} (m : M (Completion A)) safe (a : A) w w' :
  m w = (Normal a, w') -> certainly m safe w = (a, w').
Proof.
  intros Hm. unfold certainly. f_equal; [|by rewrite Hm].
  apply value_of_Normal. by rewrite Hm.
Qed.

Lemma generateTraceparent_unfold w :
  let traceId := hex_of (octets w 16) in
  let parentId := hex_of (octets (advance_octets 16 w) 8) in
  generateTraceparent w
  = (mkTrace ("00" +:+ "-" +:+ traceId +:+ "-" +:+ parentId +:+ "-" +:+ "01") traceId,
     advance_octets 8 (advance_octets 16 w)).
Proof.
  assert (H32 : (32 / 2 <= 65536)%N) by (by apply N.leb_le).
  assert (H16 : (16 / 2 <= 65536)%N) by (by apply N.leb_le).
  unfold generateTraceparent, mbind, M_bind, mret, M_ret.
  rewrite (certainly_run (randomHex 32) _ _ w _ (randomHex_unfold 32 w H32)).
  by rewrite (certainly_run (randomHex 16) _ _ _ _
                (randomHex_unfold 16 (advance_octets _ w) H16)).
Qed.

(** C9. Every value produced by [generateTraceparent] matches
    [^00-[0-9a-f]{32}-[0-9a-f]{16}-01$]: version [00], a trace id of 32
    lowercase hexadecimal characters, a parent id of 16, and flags [01],
    joined by hyphens. *)
Theorem C9_traceparent_well_formed (w : World) :
  matches traceparent_pattern (traceparent (fst (generateTraceparent w))) = true
  /\ matches (replicate 32 LowerHex) (traceId (fst (generateTraceparent w))) = true
  /\ exists parentId,
       matches (replicate 16 LowerHex) parentId = true
       /\ traceparent (fst (generateTraceparent w))
          = "00-" +:+ traceId (fst (generateTraceparent w)) +:+ "-" +:+ parentId +:+ "-01".
Proof.
  rewrite generateTraceparent_unfold. cbn [fst traceparent traceId].
  pose proof (hex_of_matches _ (octets_range w 16)) as Ht.
  pose proof (hex_of_matches _ (octets_range (advance_octets 16 w) 8)) as Hp.
  rewrite length_octets in Ht, Hp.
  split; [|split; [exact Ht | eexists; split; [exact Hp | reflexivity]]].
  unfold traceparent_pattern.
  apply (matches_app (lits "00-") "00-"); [reflexivity|].
  apply matches_app; [exact Ht|].
  apply (matches_app (lits "-") "-"); [reflexivity|].
  apply matches_app; [exact Hp | reflexivity].
Qed.




(** ** Reading a header *)

Lemma header_truthy_own p (h : gmap string string) name :
  inherits p name = false -> header_truthy p h name = truthy (h !! name).
Proof. intros Hown. unfold header_truthy, truthy. by destruct (h !! name). Qed.

Lemma header_truthy_traceparent p (h : gmap string string) :
  header_truthy p h "traceparent" = truthy (h !! "traceparent").
Proof. apply header_truthy_own, traceparent_own. Qed.

Lemma header_truthy_Some p (h : gmap string string) name v :
  h !! name = Some v -> header_truthy p h name = truthy (Some v).
Proof. intros Hv. unfold header_truthy. by rewrite Hv. Qed.

Lemma header_truthy_insert_ne p (h : gmap string string) k v name :
  name <> k -> header_truthy p (<[k := v]> h) name = header_truthy p h name.
Proof. intros Hne. unfold header_truthy. by rewrite lookup_insert_ne. Qed.

Lemma set_if_falsy_own p c key x (h : gmap string string) :
  inherits p key = false ->
  set_if_falsy p c key x h = if c && negb (truthy (h !! key)) then <[key := x]> h else h.
Proof. intros Hown. unfold set_if_falsy. by rewrite header_truthy_own. Qed.

(** ** The blocks of the interceptor in closed form *)

Ltac run_M := unfold mbind, M_bind, mret, M_ret in *.

Lemma useActiveSpan_spec en otel h w :
  useActiveSpan en otel h w
  = if otel then
      match span_tape w (spans_probed w) with
      | ProbeSpan t =>
          (Some t, set_if_falsy (header_prototype w) en "X-Trace-ID" t h, advance_spans w)
      | _ => (None, h, advance_spans w)
      end
    else (None, h, w).
Proof.
  unfold useActiveSpan, activeSpan, header_is_set, set_if_falsy. run_M.
  destruct otel; [|done]. by destruct (span_tape w (spans_probed w)).
Qed.

Lemma injectTraceparent_spec en t h w :
  injectTraceparent en t h w
  = if en && negb (truthy (h !! "traceparent"))
    then (Some (default (traceId (generateTraceparent w).1) t),
          <["traceparent" := traceparent (generateTraceparent w).1]> h,
          (generateTraceparent w).2)
    else (t, h, w).
Proof.
  unfold injectTraceparent, header_is_set. run_M.
  rewrite header_truthy_traceparent.
  destruct (en && negb (truthy (h !! "traceparent"))); [|done].
  by destruct (generateTraceparent w).
Qed.

Lemma injectTransactionId_spec txn dis use t h w :
  injectTransactionId txn dis use t h w
  = if negb dis && negb (header_truthy (header_prototype w) h txn)
    then if use && truthy t
         then (<[txn := default "" t]> h, w)
         else (<[txn := uuid_tape w (uuids_drawn w)]> h, advance_uuids w)
    else (h, w).
Proof.
  unfold injectTransactionId, header_is_set, uuidv4. run_M.
  destruct (negb dis && negb (header_truthy (header_prototype w) h txn)); [|done].
  by destruct (use && truthy t).
Qed.

(** No block touches the prototype. *)
Lemma useActiveSpan_prototype en otel h w :
  header_prototype (useActiveSpan en otel h w).2 = header_prototype w.
Proof.
  rewrite useActiveSpan_spec. destruct otel; [|done].
  by destruct (span_tape w (spans_probed w)).
Qed.

Lemma injectTraceparent_prototype en t h w :
  header_prototype (injectTraceparent en t h w).2 = header_prototype w.
Proof.
  rewrite injectTraceparent_spec. destruct (en && _); [|done].
  cbn [snd]. by rewrite generateTraceparent_unfold.
Qed.

Lemma injectTransactionId_prototype txn dis use t h w :
  header_prototype (injectTransactionId txn dis use t h w).2 = header_prototype w.
Proof.
  rewrite injectTransactionId_spec. destruct (negb dis && _); [|done].
  by destruct (use && truthy t).
Qed.

Lemma requestInterceptor_unfold txn dis en use svc otel config w :
  let r1 := useActiveSpan en otel (sent_headers config) w in
  let r2 := injectTraceparent en r1.1.1 r1.1.2 r1.2 in
  let r3 := injectTransactionId txn dis use r2.1.1 r2.1.2 r2.2 in
  requestInterceptor txn dis en use svc otel config w
  = (mkRequest (url config)
       (Some (set_if_falsy (header_prototype w) (truthy svc) "X-Source-Service"
                (default "" svc) r3.1)),
     r3.2).
Proof.
  intros r1 r2 r3.
  assert (Hp : header_prototype r3.2 = header_prototype w).
  { subst r3 r2 r1.
    by rewrite injectTransactionId_prototype, injectTraceparent_prototype,
      useActiveSpan_prototype. }
  rewrite <- Hp. subst r3 r2 r1.
  unfold requestInterceptor, sent_headers. run_M. simpl.
  destruct (useActiveSpan _ _ _ _) as [[t1 h1] w1]. simpl.
  destruct (injectTraceparent _ _ _ _) as [[t2 h2] w2]. simpl.
  by destruct (injectTransactionId _ _ _ _ _ _) as [h3 w3].
Qed.

(** Each block leaves the header object as some guarded assignment to
    its own key would. *)
Lemma useActiveSpan_fill en otel h w :
  exists c x,
    (useActiveSpan en otel h w).1.2 = set_if_falsy (header_prototype w) c "X-Trace-ID" x h.
Proof.
  rewrite useActiveSpan_spec. destruct otel; [|by exists false, ""].
  destruct (span_tape w (spans_probed w)) as [| |t];
    [by exists false, "" | by exists false, "" | by exists en, t].
Qed.

Lemma injectTraceparent_fill p en t h w :
  exists x, (injectTraceparent en t h w).1.2 = set_if_falsy p en "traceparent" x h.
Proof.
  exists (traceparent (generateTraceparent w).1).
  rewrite injectTraceparent_spec, set_if_falsy_own by apply traceparent_own.
  by destruct (en && negb (truthy (h !! "traceparent"))).
Qed.

Lemma injectTransactionId_fill txn dis use t h w :
  exists x,
    (injectTransactionId txn dis use t h w).1
    = set_if_falsy (header_prototype w) (negb dis) txn x h.
Proof.
  rewrite injectTransactionId_spec. unfold set_if_falsy.
  destruct (negb dis && negb (header_truthy (header_prototype w) h txn)); [|by exists ""].
  destruct (use && truthy t); eauto.
Qed.

(** The transaction-id block runs on the host's prototype. *)
Lemma transaction_block_prototype en otel t h h' w :
  header_prototype (injectTraceparent en t h' (useActiveSpan en otel h w).2).2
  = header_prototype w.
Proof. by rewrite injectTraceparent_prototype, useActiveSpan_prototype. Qed.

(** ** Invariants of one run *)

Lemma requestInterceptor_invariant (P : gmap string string -> Prop)
    txn dis en use svc otel config w :
  stable (header_prototype w) P txn -> stable (header_prototype w) P "traceparent" ->
  stable (header_prototype w) P "X-Trace-ID" ->
  stable (header_prototype w) P "X-Source-Service" ->
  P (sent_headers config) ->
  P (sent_headers (requestInterceptor txn dis en use svc otel config w).1).
Proof.
  intros Htxn Htp Htid Hsvc H0.
  rewrite requestInterceptor_unfold. cbn [fst sent_headers headers from_option id].
  set (r1 := useActiveSpan en otel (sent_headers config) w).
  set (r2 := injectTraceparent en r1.1.1 r1.1.2 r1.2).
  apply Hsvc.
  destruct (injectTransactionId_fill txn dis use r2.1.1 r2.1.2 r2.2) as [x3 ->].
  subst r2 r1. rewrite transaction_block_prototype.
  apply Htxn.
  destruct (injectTraceparent_fill (header_prototype w) en
              (useActiveSpan en otel (sent_headers config) w).1.1
              (useActiveSpan en otel (sent_headers config) w).1.2
              (useActiveSpan en otel (sent_headers config) w).2) as [x2 ->].
  apply Htp.
  destruct (useActiveSpan_fill en otel (sent_headers config) w) as (c1 & x1 & ->).
  by apply Htid.
Qed.

Lemma requestInterceptor_headers txn dis en use svc otel config w :
  headers (requestInterceptor txn dis en use svc otel config w).1
  = Some (sent_headers (requestInterceptor txn dis en use svc otel config w).1).
Proof. by rewrite requestInterceptor_unfold. Qed.

Lemma truthy_Some_nonempty (v : string) : v <> "" -> truthy (Some v) = true.
Proof.
  intros Hv. unfold truthy. apply negb_true_iff, String.eqb_neq. done.
Qed.

Lemma kept_stable p (k v key : string) :
  v <> "" -> stable p (fun h => h !! k = Some v) key.
Proof.
  intros Hv c x h Hk. unfold set_if_falsy.
  destruct (decide (key = k)) as [->|Hne].
  - rewrite (header_truthy_Some _ _ _ _ Hk), truthy_Some_nonempty by done.
    by rewrite andb_false_r.
  - destruct (c && _); [by rewrite lookup_insert_ne | done].
Qed.

(** C1 (as stated, refuted). A transaction-id header that is present
    with the empty string as its value is overwritten. *)
Lemma C1_counterexample :
  let hs : gmap string string := {["X-Transaction-ID" := ""]} in
  hs !! "X-Transaction-ID" = Some ""
  /\ sent_headers (default_interceptor (mkRequest "/users" (Some hs)) sample_world).1
       !! "X-Transaction-ID"
     = Some "3fa85f64-5717-4562-b3fc-2c963f66afa6".
Proof. split; vm_compute; reflexivity. Qed.

(** C1 (amended). For every request and every configuration, a header
    (in particular each managed one: the configured transaction-id header,
    [traceparent], [X-Trace-ID], [X-Source-Service]) that is present with a
    non-empty value before the interceptor runs has exactly the same value
    after it. *)
Theorem C1_non_clobber (txn : string) (dis en use : bool) (svc : option string)
    (otel : bool) (config : InternalAxiosRequestConfig) (w : World) (k v : string) :
  sent_headers config !! k = Some v ->
  v <> "" ->
  exists hs',
    headers (requestInterceptor txn dis en use svc otel config w).1 = Some hs'
    /\ hs' !! k = Some v.
Proof.
  intros Hk Hv. eexists. split; [apply requestInterceptor_headers|].
  apply (requestInterceptor_invariant (fun h => h !! k = Some v));
    auto using kept_stable.
Qed.

Lemma C1_non_clobber_witness :
  exists hs',
    headers (requestInterceptor "traceparent" false true true (Some "SVC") true
               (mkRequest "/users" (Some {["traceparent" := custom_traceparent]}))
               sample_world).1 = Some hs'
    /\ hs' !! "traceparent" = Some custom_traceparent.
Proof.
  apply (C1_non_clobber "traceparent" false true true (Some "SVC") true
           (mkRequest "/users" (Some {["traceparent" := custom_traceparent]}))
           sample_world "traceparent" custom_traceparent).
  - vm_compute. reflexivity.
  - discriminate.
Defined.

(** ** Two runs on related header objects *)

Lemma set_if_falsy_related p R key c x a b :
  respects p R key -> R a b -> R (set_if_falsy p c key x a) (set_if_falsy p c key x b).
Proof.
  intros HR Hab. destruct (HR a b Hab) as [Ht Hins]. unfold set_if_falsy.
  rewrite Ht. destruct (c && _); auto.
Qed.

Lemma useActiveSpan_related R en otel a b w :
  respects (header_prototype w) R "X-Trace-ID" -> R a b ->
  (useActiveSpan en otel a w).1.1 = (useActiveSpan en otel b w).1.1
  /\ (useActiveSpan en otel a w).2 = (useActiveSpan en otel b w).2
  /\ R (useActiveSpan en otel a w).1.2 (useActiveSpan en otel b w).1.2.
Proof.
  intros HR Hab. rewrite !useActiveSpan_spec.
  destruct otel; [|done].
  destruct (span_tape w (spans_probed w)); simpl; try done.
  repeat split. by apply set_if_falsy_related.
Qed.

Lemma injectTraceparent_related p R en t a b w :
  respects p R "traceparent" -> R a b ->
  (injectTraceparent en t a w).1.1 = (injectTraceparent en t b w).1.1
  /\ (injectTraceparent en t a w).2 = (injectTraceparent en t b w).2
  /\ R (injectTraceparent en t a w).1.2 (injectTraceparent en t b w).1.2.
Proof.
  intros HR Hab. rewrite !injectTraceparent_spec.
  destruct (HR a b Hab) as [Ht Hins]. rewrite !header_truthy_traceparent in Ht.
  rewrite Ht. destruct (en && _); simpl; auto.
Qed.

Lemma injectTransactionId_related R txn dis use t a b w :
  respects (header_prototype w) R txn -> R a b ->
  (injectTransactionId txn dis use t a w).2 = (injectTransactionId txn dis use t b w).2
  /\ R (injectTransactionId txn dis use t a w).1 (injectTransactionId txn dis use t b w).1.
Proof.
  intros HR Hab. rewrite !injectTransactionId_spec.
  destruct (HR a b Hab) as [-> Hins].
  destruct (negb dis && _); simpl; auto.
  destruct (use && truthy t); simpl; auto.
Qed.

Lemma requestInterceptor_related R txn dis en use svc otel u a b w :
  respects (header_prototype w) R txn -> respects (header_prototype w) R "traceparent" ->
  respects (header_prototype w) R "X-Trace-ID" ->
  respects (header_prototype w) R "X-Source-Service" ->
  R a b ->
  (requestInterceptor txn dis en use svc otel (mkRequest u (Some a)) w).2
  = (requestInterceptor txn dis en use svc otel (mkRequest u (Some b)) w).2
  /\ R (sent_headers (requestInterceptor txn dis en use svc otel (mkRequest u (Some a)) w).1)
       (sent_headers (requestInterceptor txn dis en use svc otel (mkRequest u (Some b)) w).1).
Proof.
  intros Htxn Htp Htid Hsvc Hab.
  rewrite !requestInterceptor_unfold.
  cbn [fst snd sent_headers headers from_option id].
  destruct (useActiveSpan_related R en otel a b w Htid Hab) as (Et1 & Ew1 & R1).
  rewrite Et1, Ew1.
  set (t1 := (useActiveSpan en otel b w).1.1). set (w1 := (useActiveSpan en otel b w).2).
  destruct (injectTraceparent_related _ R en t1 _ _ w1 Htp R1) as (Et2 & Ew2 & R2).
  rewrite Et2, Ew2.
  set (t2 := (injectTraceparent en t1 _ w1).1.1).
  set (w2 := (injectTraceparent en t1 _ w1).2).
  assert (Hp : header_prototype w2 = header_prototype w)
    by (subst w2 w1; apply transaction_block_prototype).
  rewrite <- Hp in Htxn.
  destruct (injectTransactionId_related R txn dis use t2 _ _ w2 Htxn R2) as (Ew3 & R3).
  split; [done|].
  by apply set_if_falsy_related.
Qed.

(** ** Keys the interceptor does not manage *)

Lemma frame_respects p (k v key : string) :
  key <> k -> respects p (fun a b => a = <[k := v]> b) key.
Proof.
  intros Hne a b ->. split.
  - by apply header_truthy_insert_ne.
  - intros x. by apply insert_insert_ne.
Qed.

(** C6 (as stated, refuted). A caller-supplied [Traceparent] differs from
    [traceparent] only in letter case, yet the interceptor still injects
    [traceparent] next to it. *)
Lemma C6_counterexample :
  let hs : gmap string string := {["Traceparent" := custom_traceparent]} in
  let sent := sent_headers (requestInterceptor "X-Transaction-ID" true true false None false
                              (mkRequest "/users" (Some hs)) sample_world).1 in
  toLowerCase "Traceparent" = toLowerCase "traceparent"
  /\ sent !! "traceparent" = Some "00-fa0b1c2d3e4f60718293a4b5c6d7e8f9-0a1b2c3d4e5f7081-01"
  /\ sent !! "Traceparent" = Some custom_traceparent.
Proof. repeat split; vm_compute; reflexivity. Qed.

(** C6 (amended). The existence check is by exact key.  A header whose key
    is not exactly one of the managed names - for instance one that differs
    from a managed name only in letter case - does not count as existing:
    the interceptor draws the same values, reaches the same decisions and
    injects the same headers as on the request without that header, and
    carries the header itself through unchanged. *)
Theorem C6_exact_key_check (txn : string) (dis en use : bool) (svc : option string)
    (otel : bool) (u : string) (hs : gmap string string) (w : World) (k v : string) :
  k <> txn -> k <> "traceparent" -> k <> "X-Trace-ID" -> k <> "X-Source-Service" ->
  (requestInterceptor txn dis en use svc otel (mkRequest u (Some (<[k := v]> hs))) w).2
  = (requestInterceptor txn dis en use svc otel (mkRequest u (Some hs)) w).2
  /\ sent_headers
       (requestInterceptor txn dis en use svc otel (mkRequest u (Some (<[k := v]> hs))) w).1
     = <[k := v]>
         (sent_headers (requestInterceptor txn dis en use svc otel (mkRequest u (Some hs)) w).1).
Proof.
  intros H1 H2 H3 H4.
  apply (requestInterceptor_related (fun a b => a = <[k := v]> b));
    auto using frame_respects.
Qed.

Lemma C6_exact_key_check_witness :
  sent_headers
    (requestInterceptor "X-Transaction-ID" false true false None false
       (mkRequest "/users" (Some (<["Traceparent" := custom_traceparent]> ∅))) sample_world).1
  = <["Traceparent" := custom_traceparent]>
      (sent_headers (requestInterceptor "X-Transaction-ID" false true false None false
                       (mkRequest "/users" (Some ∅)) sample_world).1).
Proof.
  apply (C6_exact_key_check "X-Transaction-ID" false true false None false "/users" ∅
           sample_world "Traceparent" custom_traceparent); discriminate.
Defined.

(** ** The run as a pipeline of guarded assignments *)

Lemma useActiveSpan_traceId en otel h w :
  (useActiveSpan en otel h w).1.1 = activeTraceId otel w.
Proof.
  rewrite useActiveSpan_spec. unfold activeTraceId.
  destruct otel; [|done]. by destruct (span_tape w (spans_probed w)).
Qed.

Lemma useActiveSpan_headers en otel h w :
  (useActiveSpan en otel h w).1.2
  = set_if_falsy (header_prototype w) (en && bool_decide (is_Some (activeTraceId otel w)))
      "X-Trace-ID" (default "" (activeTraceId otel w)) h.
Proof.
  rewrite useActiveSpan_spec. unfold activeTraceId, set_if_falsy.
  destruct otel; [|simpl; by rewrite andb_false_r].
  destruct (span_tape w (spans_probed w)) as [| |t]; simpl;
    by rewrite ?andb_false_r, ?andb_true_r.
Qed.

Lemma useActiveSpan_world en otel h w :
  (useActiveSpan en otel h w).2 = if otel then advance_spans w else w.
Proof.
  rewrite useActiveSpan_spec. destruct otel; [|done].
  by destruct (span_tape w (spans_probed w)).
Qed.

Lemma requestInterceptor_pipeline txn dis en use svc otel config w :
  exists x2 x3,
    sent_headers (requestInterceptor txn dis en use svc otel config w).1
    = set_if_falsy (header_prototype w) (truthy svc) "X-Source-Service" (default "" svc)
        (set_if_falsy (header_prototype w) (negb dis) txn x3
           (set_if_falsy (header_prototype w) en "traceparent" x2
              (set_if_falsy (header_prototype w)
                 (en && bool_decide (is_Some (activeTraceId otel w))) "X-Trace-ID"
                 (default "" (activeTraceId otel w)) (sent_headers config)))).
Proof.
  rewrite requestInterceptor_unfold. cbn [fst sent_headers headers from_option id].
  set (r1 := useActiveSpan en otel _ w).
  set (r2 := injectTraceparent en r1.1.1 r1.1.2 r1.2).
  destruct (injectTransactionId_fill txn dis use r2.1.1 r2.1.2 r2.2) as [x3 ->].
  destruct (injectTraceparent_fill (header_prototype w) en r1.1.1 r1.1.2 r1.2) as [x2 Hx2].
  fold r2 in Hx2. rewrite Hx2. exists x2, x3.
  subst r2 r1. by rewrite transaction_block_prototype, useActiveSpan_headers.
Qed.

Lemma present_stable p (h key : string) :
  stable p (fun m => is_Some (m !! h)) key.
Proof.
  intros c x m Hm. unfold set_if_falsy. destruct (c && _); [|done].
  destruct (decide (key = h)) as [->|Hne].
  - rewrite lookup_insert_eq. eauto.
  - by rewrite lookup_insert_ne.
Qed.

Lemma truthy_present (m : gmap string string) (key : string) :
  truthy (m !! key) = true -> is_Some (m !! key).
Proof. destruct (m !! key); [eauto | done]. Qed.

(** Under a name that is not inherited, a guarded assignment leaves an
    own property. *)
Lemma set_if_falsy_present p key x (m : gmap string string) :
  inherits p key = false -> is_Some (set_if_falsy p true key x m !! key).
Proof.
  intros Hown. rewrite set_if_falsy_own by done. simpl.
  destruct (truthy (m !! key)) eqn:Ht; simpl.
  - by apply truthy_present.
  - rewrite lookup_insert_eq. eauto.
Qed.

Lemma injection_enabled_present txn dis en use svc otel config w h :
  inherits (header_prototype w) h = false ->
  injection_enabled txn dis en svc otel w h ->
  is_Some (sent_headers (requestInterceptor txn dis en use svc otel config w).1 !! h).
Proof.
  intros Hown Hen.
  destruct (requestInterceptor_pipeline txn dis en use svc otel config w) as (x2 & x3 & ->).
  destruct Hen as [[-> ->]|[[-> ->]|[[-> Hs]|(-> & -> & -> & t & Ht)]]].
  - apply present_stable. by apply set_if_falsy_present.
  - do 2 apply present_stable. by apply set_if_falsy_present.
  - rewrite Hs. by apply set_if_falsy_present.
  - do 3 apply present_stable.
    unfold activeTraceId. rewrite Ht. simpl. by apply set_if_falsy_present.
Qed.

(** ** Empty values *)

Lemma blank_respects p (h key : string) :
  inherits p h = false -> respects p (blank_at h) key.
Proof.
  intros Hown a b [->|[Ha ->]]; [split; [done | by left]|].
  destruct (decide (key = h)) as [->|Hne].
  - split.
    + unfold header_truthy. by rewrite Ha, lookup_delete_eq, Hown.
    + intros x. left. by rewrite insert_delete_eq.
  - split; [unfold header_truthy; by rewrite lookup_delete_ne|].
    intros x. right. split; [by rewrite lookup_insert_ne|].
    by rewrite delete_insert_ne.
Qed.

(** C10 (as stated, refuted). With trace context enabled but no active
    span, an [X-Trace-ID] sent as the empty string is not overwritten.  And
    an empty value is not always treated as an absent header: with the
    transaction-id header configured as [constructor], the empty own value
    is overwritten with a UUID, whereas without it the inherited member
    makes the interceptor leave the request alone. *)
Lemma C10_counterexample :
  (let hs : gmap string string := {["X-Trace-ID" := ""]} in
   let sent := sent_headers (requestInterceptor "X-Transaction-ID" false true false None false
                               (mkRequest "/users" (Some hs)) sample_world).1 in
   sent !! "X-Trace-ID" = Some ""
   /\ sent !! "traceparent" = Some "00-fa0b1c2d3e4f60718293a4b5c6d7e8f9-0a1b2c3d4e5f7081-01")
  /\ (let client := requestInterceptor "constructor" false false false None false in
      let with_empty := client (mkRequest "/users" (Some {["constructor" := ""]})) sample_world in
      let without := client (mkRequest "/users" (Some ∅)) sample_world in
      inherits (header_prototype sample_world) "constructor" = true
      /\ sent_headers with_empty.1 !! "constructor"
         = Some "3fa85f64-5717-4562-b3fc-2c963f66afa6"
      /\ sent_headers without.1 !! "constructor" = None
      /\ uuids_drawn with_empty.2 = 1%nat
      /\ uuids_drawn without.2 = 0%nat).
Proof. repeat split; vm_compute; reflexivity. Qed.

(** C10 (amended). A managed header sent as the empty string, under a
    name the header object inherits no member under (which the three fixed
    names always are, and the transaction-id header is unless it is
    configured as, say, [constructor]), is treated exactly as if it were
    absent: the run draws the same values as on the request without that
    header, and whenever the interceptor injects the header into the request
    without it - which it does when the transaction id is not disabled
    (transaction-id header), when trace context is enabled ([traceparent]),
    when a non-empty service name is configured ([X-Source-Service]), and
    when trace context is enabled and an active span is found ([X-Trace-ID])
    - the empty value is overwritten with that same injected value. *)
Theorem C10_empty_value_is_absent (txn : string) (dis en use : bool) (svc : option string)
    (otel : bool) (u : string) (hs : gmap string string) (w : World) (h : string) :
  hs !! h = Some "" ->
  inherits (header_prototype w) h = false ->
  let with_empty := requestInterceptor txn dis en use svc otel (mkRequest u (Some hs)) w in
  let without :=
    requestInterceptor txn dis en use svc otel (mkRequest u (Some (delete h hs))) w in
  with_empty.2 = without.2
  /\ (forall v, sent_headers without.1 !! h = Some v ->
                sent_headers with_empty.1 = sent_headers without.1)
  /\ (injection_enabled txn dis en svc otel w h ->
      exists v, sent_headers without.1 !! h = Some v
                /\ sent_headers with_empty.1 !! h = Some v).
Proof.
  intros Hh Hown with_empty without.
  destruct (requestInterceptor_related (blank_at h) txn dis en use svc otel u
              hs (delete h hs) w) as [Hw HR]; auto using blank_respects.
  { right. done. }
  fold with_empty in Hw, HR. fold without in Hw, HR.
  assert (Hsame : forall v, sent_headers without.1 !! h = Some v ->
                            sent_headers with_empty.1 = sent_headers without.1).
  { intros v Hv. destruct HR as [->|[_ Hdel]]; [done|].
    rewrite Hdel, lookup_delete_eq in Hv. done. }
  split; [done|]. split; [done|].
  intros Hen.
  destruct (injection_enabled_present txn dis en use svc otel
              (mkRequest u (Some (delete h hs))) w h Hown Hen) as [v Hv].
  fold without in Hv. exists v. split; [done|]. by rewrite (Hsame v Hv).
Qed.

Lemma C10_empty_value_is_absent_witness :
  exists v,
    sent_headers (requestInterceptor "X-Transaction-ID" false true false None true
                    (mkRequest "/users" (Some (delete "X-Trace-ID" {["X-Trace-ID" := ""]})))
                    span_world).1 !! "X-Trace-ID" = Some v
    /\ sent_headers (requestInterceptor "X-Transaction-ID" false true false None true
                       (mkRequest "/users" (Some {["X-Trace-ID" := ""]}))
                       span_world).1 !! "X-Trace-ID" = Some v.
Proof.
  apply (C10_empty_value_is_absent "X-Transaction-ID" false true false None true "/users"
           {["X-Trace-ID" := ""]} span_world "X-Trace-ID").
  - vm_compute. reflexivity.
  - reflexivity.
  - right. right. right. repeat split. by eexists.
Defined.

(** ** What the host state looks like after each block *)

Lemma set_if_falsy_lookup_ne p c key x (m : gmap string string) k :
  key <> k -> set_if_falsy p c key x m !! k = m !! k.
Proof.
  intros Hne. unfold set_if_falsy. destruct (c && _); [by rewrite lookup_insert_ne | done].
Qed.

Lemma generateTraceparent_world w :
  (generateTraceparent w).2 = advance_octets 8 (advance_octets 16 w).
Proof. by rewrite generateTraceparent_unfold. Qed.

Lemma injectTraceparent_uuids en t h w :
  uuid_tape (injectTraceparent en t h w).2 = uuid_tape w
  /\ uuids_drawn (injectTraceparent en t h w).2 = uuids_drawn w.
Proof.
  rewrite injectTraceparent_spec. destruct (en && _); [|done].
  cbn [snd]. by rewrite generateTraceparent_world.
Qed.

Lemma useActiveSpan_uuids en otel h w :
  uuid_tape (useActiveSpan en otel h w).2 = uuid_tape w
  /\ uuids_drawn (useActiveSpan en otel h w).2 = uuids_drawn w.
Proof. rewrite useActiveSpan_world. by destruct otel. Qed.

Lemma useActiveSpan_octets en otel h w n :
  octets (useActiveSpan en otel h w).2 n = octets w n.
Proof. rewrite useActiveSpan_world. by destruct otel. Qed.

(** The observed trace id is the active span's when there is one, else
    the freshly synthesised one when a [traceparent] is generated. *)
Lemma observedTraceId_spec en otel config w :
  observedTraceId en otel config w
  = match activeTraceId otel w with
    | Some t => Some t
    | None =>
        if en && negb (truthy (sent_headers config !! "traceparent"))
        then Some (hex_of (octets w 16))
        else None
    end.
Proof.
  unfold observedTraceId. rewrite injectTraceparent_spec.
  rewrite useActiveSpan_traceId, useActiveSpan_headers.
  rewrite set_if_falsy_lookup_ne by done.
  destruct (en && negb (truthy (sent_headers config !! "traceparent"))); cbn [fst snd].
  - destruct (activeTraceId otel w); [done|]. cbn [from_option id].
    rewrite generateTraceparent_unfold. cbn [fst traceId].
    by rewrite useActiveSpan_octets.
  - by destruct (activeTraceId otel w).
Qed.

(** ** The secondary trace-id header *)

(** C2 (as stated, refuted). Without an active span the trace context is
    synthesised and its trace id observed, yet no [X-Trace-ID] is set. *)
Lemma C2_counterexample :
  let request := mkRequest "/users" None in
  let sent := sent_headers (requestInterceptor "X-Transaction-ID" false true false None false
                              request sample_world).1 in
  observedTraceId true false request sample_world = Some "fa0b1c2d3e4f60718293a4b5c6d7e8f9"
  /\ sent !! "traceparent" = Some "00-fa0b1c2d3e4f60718293a4b5c6d7e8f9-0a1b2c3d4e5f7081-01"
  /\ sent !! "X-Trace-ID" = None.
Proof. repeat split; vm_compute; reflexivity. Qed.

(** C2 (amended). With trace context enabled, no [X-Trace-ID] pre-set
    and the transaction-id header configured under another name, the
    interceptor sets [X-Trace-ID] to the trace id of the active span when the
    active-span lookup yields one (which is then also the observed trace
    id); when the lookup yields none the header is left as the caller sent
    it, also when a [traceparent] was synthesised and its trace id became
    the observed one. *)
Theorem C2_secondary_trace_id (txn : string) (dis use : bool) (svc : option string)
    (otel : bool) (config : InternalAxiosRequestConfig) (w : World) :
  txn <> "X-Trace-ID" ->
  truthy (sent_headers config !! "X-Trace-ID") = false ->
  let sent := sent_headers (requestInterceptor txn dis true use svc otel config w).1 in
  (forall t, activeTraceId otel w = Some t ->
             sent !! "X-Trace-ID" = Some t
             /\ observedTraceId true otel config w = Some t)
  /\ (activeTraceId otel w = None ->
      sent !! "X-Trace-ID" = sent_headers config !! "X-Trace-ID").
Proof.
  intros Htxn Hfalsy sent. subst sent.
  destruct (requestInterceptor_pipeline txn dis true use svc otel config w) as (x2 & x3 & ->).
  rewrite !set_if_falsy_lookup_ne by done.
  split.
  - intros t Ht. rewrite observedTraceId_spec, Ht. split; [|done].
    rewrite set_if_falsy_own by apply trace_id_own.
    rewrite Hfalsy. simpl. by rewrite lookup_insert_eq.
  - intros Hnone. rewrite Hnone. done.
Qed.

Lemma C2_secondary_trace_id_witness :
  sent_headers (requestInterceptor "X-Transaction-ID" false true false None true
                  (mkRequest "/users" None) span_world).1 !! "X-Trace-ID"
  = Some "0af7651916cd43dd8448eb211c80319c".
Proof.
  apply (C2_secondary_trace_id "X-Transaction-ID" false false None true
           (mkRequest "/users" None) span_world); [discriminate | reflexivity..].
Defined.

(** ** The transaction-id header *)

Lemma transaction_header_value txn en use svc otel config w :
  txn <> "traceparent" -> txn <> "X-Trace-ID" -> txn <> "X-Source-Service" ->
  inherits (header_prototype w) txn = false ->
  truthy (sent_headers config !! txn) = false ->
  sent_headers (requestInterceptor txn false en use svc otel config w).1 !! txn
  = Some (if use && truthy (observedTraceId en otel config w)
          then default "" (observedTraceId en otel config w)
          else uuid_tape w (uuids_drawn w)).
Proof.
  intros H1 H2 H3 Hown Hfalsy. unfold observedTraceId.
  rewrite requestInterceptor_unfold. cbn [fst sent_headers headers from_option id].
  set (r1 := useActiveSpan en otel _ w).
  set (r2 := injectTraceparent en r1.1.1 r1.1.2 r1.2).
  rewrite set_if_falsy_lookup_ne by done.
  assert (Hp : header_prototype r2.2 = header_prototype w)
    by (subst r2 r1; apply transaction_block_prototype).
  assert (Hh2 : header_truthy (header_prototype r2.2) r2.1.2 txn = false).
  { rewrite Hp, header_truthy_own by done.
    destruct (injectTraceparent_fill (header_prototype w) en r1.1.1 r1.1.2 r1.2)
      as [x2 Hx2].
    fold r2 in Hx2. rewrite Hx2, set_if_falsy_lookup_ne by done.
    subst r1. by rewrite useActiveSpan_headers, set_if_falsy_lookup_ne. }
  rewrite injectTransactionId_spec, Hh2. cbn [negb andb].
  assert (uuid_tape r2.2 = uuid_tape r1.2 /\ uuids_drawn r2.2 = uuids_drawn r1.2)
    as [Etape Ecur] by apply injectTraceparent_uuids.
  assert (uuid_tape r1.2 = uuid_tape w /\ uuids_drawn r1.2 = uuids_drawn w)
    as [Etape1 Ecur1] by apply useActiveSpan_uuids.
  destruct (use && truthy r2.1.1); cbn [fst]; rewrite lookup_insert_eq; [done|].
  by rewrite Etape, Ecur, Etape1, Ecur1.
Qed.


(** C5 (as stated, refuted). When the transaction-id header is
    configured under the name [traceparent], it ends up holding the
    synthesised trace context, which is neither the observed trace id nor a
    version-4 UUID; an active span whose trace id is the empty string is
    available but not used, a UUID being generated instead; and when the
    header is configured under a name the header object inherits a member
    under, such as [constructor], the request carries no such header and yet
    nothing is set. *)
Lemma C5_counterexample :
  (let request := mkRequest "/users" None in
   let sent := sent_headers (requestInterceptor "traceparent" false true false None false
                               request sample_world).1 in
   sent_headers request !! "traceparent" = None
   /\ sent !! "traceparent" = Some "00-fa0b1c2d3e4f60718293a4b5c6d7e8f9-0a1b2c3d4e5f7081-01"
   /\ matches uuid_v4_pattern "00-fa0b1c2d3e4f60718293a4b5c6d7e8f9-0a1b2c3d4e5f7081-01" = false)
  /\ (let request := mkRequest "/users" None in
      let sent := sent_headers (requestInterceptor "X-Transaction-ID" false false true None true
                                  request empty_span_world).1 in
      observedTraceId false true request empty_span_world = Some ""
      /\ sent !! "X-Transaction-ID" = Some "3fa85f64-5717-4562-b3fc-2c963f66afa6")
  /\ (let request := mkRequest "/users" None in
      let sent := sent_headers (requestInterceptor "constructor" false false false None false
                                  request sample_world).1 in
      sent_headers request !! "constructor" = None
      /\ inherits (header_prototype sample_world) "constructor" = true
      /\ sent !! "constructor" = None).
Proof. repeat split; vm_compute; reflexivity. Qed.

(** C5 (amended). When transaction-id injection is not disabled, the
    configured transaction-id header is not pre-set, its name is not one of
    the other managed names and the header object inherits no member under
    that name, the interceptor sets it to the observed trace id exactly when
    [useTraceIdAsTransactionId] is true and an observed trace id (from the
    active span or the synthesised trace context) is available and
    non-empty; otherwise it sets it to the identifier [uuidv4()] returns,
    which has the version-4 shape by the contract of that generator. *)
Theorem C5_transaction_id_decision (txn : string) (en use : bool) (svc : option string)
    (otel : bool) (config : InternalAxiosRequestConfig) (w : World) :
  txn <> "traceparent" -> txn <> "X-Trace-ID" -> txn <> "X-Source-Service" ->
  inherits (header_prototype w) txn = false ->
  truthy (sent_headers config !! txn) = false ->
  let sent := sent_headers (requestInterceptor txn false en use svc otel config w).1 in
  let observed := observedTraceId en otel config w in
  (forall t, use = true -> observed = Some t -> t <> "" -> sent !! txn = Some t)
  /\ (use = false \/ observed = None \/ observed = Some "" ->
      sent !! txn = Some (uuid_tape w (uuids_drawn w))
      /\ (uuid_contract w ->
          exists value, sent !! txn = Some value /\ matches uuid_v4_pattern value = true)).
Proof.
  intros H1 H2 H3 Hown Hfalsy sent observed.
  assert (Hsent : sent !! txn
                  = Some (if use && truthy observed then default "" observed
                          else uuid_tape w (uuids_drawn w)))
    by (by apply transaction_header_value).
  split.
  - intros t -> Hobs Ht. rewrite Hsent, Hobs. simpl.
    by rewrite (proj2 (String.eqb_neq t "") Ht).
  - intros Hcase.
    assert (Huuid : use && truthy observed = false).
    { destruct Hcase as [-> | [-> | ->]]; simpl; by rewrite ?andb_false_r. }
    rewrite Hsent, Huuid. split; [done|].
    intros Hlib. eexists. split; [done | apply Hlib].
Qed.

Lemma C5_transaction_id_decision_witness :
  sent_headers (requestInterceptor "X-Transaction-ID" false true true None false
                  (mkRequest "/users" None) sample_world).1 !! "X-Transaction-ID"
  = Some "fa0b1c2d3e4f60718293a4b5c6d7e8f9".
Proof.
  apply (C5_transaction_id_decision "X-Transaction-ID" true true None false
           (mkRequest "/users" None) sample_world);
    [discriminate | discriminate | discriminate | reflexivity | reflexivity | reflexivity
    | reflexivity | discriminate].
Defined.

(** ** Rendering is injective *)

Lemma hexDigit_inj d d' :
  0 <= d < 16 -> 0 <= d' < 16 -> hexDigit d = hexDigit d' -> d = d'.
Proof.
  intros Hd Hd' H.
  assert (Hc : d = 0 \/ d = 1 \/ d = 2 \/ d = 3 \/ d = 4 \/ d = 5 \/ d = 6 \/ d = 7
          \/ d = 8 \/ d = 9 \/ d = 10 \/ d = 11 \/ d = 12 \/ d = 13 \/ d = 14 \/ d = 15)
    by lia.
  assert (Hc' : d' = 0 \/ d' = 1 \/ d' = 2 \/ d' = 3 \/ d' = 4 \/ d' = 5 \/ d' = 6 \/ d' = 7
          \/ d' = 8 \/ d' = 9 \/ d' = 10 \/ d' = 11 \/ d' = 12 \/ d' = 13 \/ d' = 14
          \/ d' = 15) by lia.
  clear Hd Hd'.
  repeat (destruct Hc as [->|Hc]);
    repeat (destruct Hc' as [->|Hc']); subst; (reflexivity || discriminate H).
Qed.

Lemma two_hex_inj b b' :
  0 <= b < 256 -> 0 <= b' < 256 -> two_hex b = two_hex b' -> b = b'.
Proof.
  intros Hb Hb' H. unfold two_hex in H. injection H as Hhi Hlo.
  apply hexDigit_inj in Hhi;
    [|split; [apply Z.div_pos; lia | apply Z.div_lt_upper_bound; lia]..].
  apply hexDigit_inj in Hlo; [|apply Z.mod_pos_bound; lia..].
  rewrite (Z.div_mod b 16), (Z.div_mod b' 16) by lia. congruence.
Qed.

Lemma hex_of_inj bs : forall bs',
  Forall (fun b => 0 <= b < 256) bs -> Forall (fun b => 0 <= b < 256) bs' ->
  hex_of bs = hex_of bs' -> bs = bs'.
Proof.
  induction bs as [|b bs IH]; intros [|b' bs'] Hr Hr' H; try done.
  - apply Forall_cons in Hr' as [Hb' _]. unfold hex_of in H. simpl in H.
    rewrite renderByte_two_hex in H by done. discriminate H.
  - apply Forall_cons in Hr as [Hb _]. unfold hex_of in H. simpl in H.
    rewrite renderByte_two_hex in H by done. discriminate H.
  - apply Forall_cons in Hr as [Hb Hr]. apply Forall_cons in Hr' as [Hb' Hr'].
    change (renderByte b +:+ hex_of bs = renderByte b' +:+ hex_of bs') in H.
    rewrite !renderByte_two_hex in H by done.
    injection H as Hhi Hlo Hrest.
    f_equal; [|by apply IH].
    apply two_hex_inj; [done..|]. unfold two_hex. congruence.
Qed.


(** ** Two requests *)

Lemma generateTraceparent_after_span en otel h w :
  (generateTraceparent (useActiveSpan en otel h w).2).1 = (generateTraceparent w).1.
Proof.
  rewrite useActiveSpan_world. destruct otel; [|done].
  by rewrite !generateTraceparent_unfold.
Qed.

Lemma traceparent_header_value txn dis use svc otel config w :
  txn <> "traceparent" ->
  truthy (sent_headers config !! "traceparent") = false ->
  sent_headers (requestInterceptor txn dis true use svc otel config w).1 !! "traceparent"
  = Some (traceparent (generateTraceparent w).1).
Proof.
  intros Htxn Hfalsy.
  rewrite requestInterceptor_unfold. cbn [fst sent_headers headers from_option id].
  set (r1 := useActiveSpan true otel _ w).
  set (r2 := injectTraceparent true r1.1.1 r1.1.2 r1.2).
  rewrite set_if_falsy_lookup_ne by done.
  destruct (injectTransactionId_fill txn dis use r2.1.1 r2.1.2 r2.2) as [x3 ->].
  rewrite set_if_falsy_lookup_ne by done.
  subst r2. rewrite injectTraceparent_spec.
  assert (Hh1 : truthy (r1.1.2 !! "traceparent") = false).
  { subst r1. by rewrite useActiveSpan_headers, set_if_falsy_lookup_ne. }
  rewrite Hh1. cbn [negb andb fst snd]. rewrite lookup_insert_eq.
  subst r1. by rewrite generateTraceparent_after_span.
Qed.

(** The host state one run leaves behind. *)
Lemma requestInterceptor_world txn dis en use svc otel config w :
  exists drew_uuid : bool,
    (requestInterceptor txn dis en use svc otel config w).2
    = (if drew_uuid then advance_uuids else id)
        ((if en && negb (truthy (sent_headers config !! "traceparent"))
          then fun w1 => advance_octets 8 (advance_octets 16 w1) else id)
           (if otel then advance_spans w else w))
    /\ (dis = true -> drew_uuid = false)
    /\ (header_truthy (header_prototype w) (sent_headers config) txn = true ->
        txn <> "traceparent" -> txn <> "X-Trace-ID" -> drew_uuid = false).
Proof.
  rewrite requestInterceptor_unfold. cbn [snd].
  rewrite injectTransactionId_spec, injectTraceparent_spec.
  rewrite useActiveSpan_world, useActiveSpan_headers.
  rewrite set_if_falsy_lookup_ne by done.
  set (w1 := if otel then advance_spans w else w).
  assert (Hp1 : header_prototype w1 = header_prototype w) by (subst w1; by destruct otel).
  set (h1 := set_if_falsy _ _ "X-Trace-ID" _ _).
  assert (Hh1 : txn <> "X-Trace-ID" ->
                header_truthy (header_prototype w) h1 txn
                = header_truthy (header_prototype w) (sent_headers config) txn).
  { intros Hne. subst h1. unfold header_truthy. by rewrite set_if_falsy_lookup_ne. }
  assert (Hguard : forall x,
            header_truthy (header_prototype w) (sent_headers config) txn = true ->
            txn <> "traceparent" -> txn <> "X-Trace-ID" ->
            header_truthy (header_prototype w) (<["traceparent" := x]> h1) txn = true
            /\ header_truthy (header_prototype w) h1 txn = true).
  { intros x Htruthy Hn1 Hn2. by rewrite header_truthy_insert_ne, Hh1. }
  clearbody h1.
  destruct (en && negb (truthy (sent_headers config !! "traceparent"))); cbn [fst snd].
  - rewrite generateTraceparent_world. cbn [header_prototype advance_octets]. rewrite Hp1.
    destruct dis; cbn [negb andb]; [by exists false|].
    destruct (header_truthy (header_prototype w) (<["traceparent" := _]> h1) txn) eqn:Hg;
      cbn [negb andb]; [by exists false|].
    assert (Hclosed : header_truthy (header_prototype w) (sent_headers config) txn = true ->
                      txn <> "traceparent" -> txn <> "X-Trace-ID" -> true = false).
    { intros Htruthy Hn1 Hn2.
      destruct (Hguard (traceparent (generateTraceparent w1).1) Htruthy Hn1 Hn2) as [Hc _].
      congruence. }
    destruct (use && truthy _); [by exists false | by exists true].
  - rewrite Hp1.
    destruct dis; cbn [negb andb]; [by exists false|].
    destruct (header_truthy (header_prototype w) h1 txn) eqn:Hg; cbn [negb andb];
      [by exists false|].
    assert (Hclosed : header_truthy (header_prototype w) (sent_headers config) txn = true ->
                      txn <> "traceparent" -> txn <> "X-Trace-ID" -> true = false).
    { intros Htruthy Hn1 Hn2. destruct (Hguard "" Htruthy Hn1 Hn2) as [_ Hc]. congruence. }
    destruct (use && truthy _); [by exists false | by exists true].
Qed.

Lemma requestInterceptor_prototype txn dis en use svc otel config w :
  header_prototype (requestInterceptor txn dis en use svc otel config w).2
  = header_prototype w.
Proof.
  destruct (requestInterceptor_world txn dis en use svc otel config w) as (drew & -> & _).
  by destruct drew, (en && negb (truthy (sent_headers config !! "traceparent"))), otel.
Qed.
















(** ** Clients with every feature off *)

(** C7. A client configured with transaction-id injection disabled,
    trace context disabled and no service name installs no request
    interceptor: the instance the constructor builds has none, so every
    request reaches the transport with its header mapping - and the host
    state - unchanged, and no managed header is added. *)
Theorem C7_pure_pass_through (JSON_parse : string -> Completion JSValue)
    (cfg : BaseAPIServiceConfig) (w : World) :
  disableTransactionId cfg = Some true ->
  default false (enableTraceContext cfg) = false ->
  serviceName cfg = None ->
  let inst := core_instance JSON_parse (ObjectConfig cfg) w in
  request_interceptors inst = []
  /\ (forall request w', dispatch inst request w' = (request, w'))
  /\ (forall request w' key,
        sent_headers (dispatch inst request w').1 !! key = sent_headers request !! key)
  /\ (setupHooks cfg = None ->
      instance (createHttpClient JSON_parse cfg w) = inst).
Proof.
  intros Hdis Hen Hsvc inst.
  assert (Hnone : request_interceptors inst = []).
  { subst inst. unfold core_instance, shouldAddInterceptor. cbn [resolvedConfig].
    by rewrite Hdis, Hen, Hsvc. }
  assert (Hid : forall request w', dispatch inst request w' = (request, w')).
  { intros request w'. unfold dispatch. by rewrite Hnone. }
  split; [done|]. split; [done|]. split.
  - intros request w' key. by rewrite Hid.
  - intros Hhooks. unfold createHttpClient, new_BaseAPIService.
    cbn [instance resolvedConfig]. by rewrite Hhooks.
Qed.

Lemma C7_pure_pass_through_witness :
  dispatch (core_instance read_json (ObjectConfig quiet_config) span_world)
           (mkRequest "/users" (Some {["Accept" := "application/json"]})) span_world
  = (mkRequest "/users" (Some {["Accept" := "application/json"]}), span_world).
Proof.
  apply (C7_pure_pass_through read_json quiet_config span_world); reflexivity.
Defined.

(** ** Response normalisation *)

Section ResponseTransform.

Variable JSON_parse : string -> Completion JSValue.

Lemma defaultTransform_total data :
  exists value, defaultTransform JSON_parse data = Normal value.
Proof.
  destruct data; simpl; eauto. destruct (JSON_parse s); eauto.
Qed.

(** C8. A string body that parses as JSON yields the parsed
    structure; a string body that fails to parse is returned unchanged and
    nothing is raised; any other body passes through unchanged; and the
    transforms the caller supplied - none, a single function or an array of
    them - run after this default transform, in their order, on its
    result. *)
Theorem C8_response_normalization (args : ConstructorArgs) (w : World) :
  let supplied := transformResponse (axiosConfig (resolvedConfig args)) in
  let installed := defaults_transformResponse (core_instance JSON_parse args w) in
  (forall text parsed,
      JSON_parse text = Normal parsed ->
      defaultTransform JSON_parse (JString text) = Normal parsed)
  /\ (forall text error,
        JSON_parse text = Throw error ->
        defaultTransform JSON_parse (JString text) = Normal (JString text))
  /\ (forall data,
        (forall text, data <> JString text) ->
        defaultTransform JSON_parse data = Normal data)
  /\ (forall data, exists value, defaultTransform JSON_parse data = Normal value)
  /\ (supplied = NoTransform -> installed = [defaultTransform JSON_parse])
  /\ (forall f, supplied = OneTransform f -> installed = [defaultTransform JSON_parse; f])
  /\ (forall fs, supplied = ManyTransforms fs -> installed = defaultTransform JSON_parse :: fs)
  /\ (forall data,
        exists normalized,
          defaultTransform JSON_parse data = Normal normalized
          /\ transformData installed data
             = match supplied with
               | NoTransform => Normal normalized
               | OneTransform f => f normalized
               | ManyTransforms fs => transformData fs normalized
               end).
Proof.
  intros supplied installed. subst supplied installed.
  unfold core_instance, userTransforms. cbn [defaults_transformResponse].
  split; [|split; [|split; [|split; [|split; [|split; [|split]]]]]].
  - intros text parsed H. simpl. by rewrite H.
  - intros text error H. simpl. by rewrite H.
  - intros data Hns. destruct data; try done. by destruct (Hns s).
  - apply defaultTransform_total.
  - by intros ->.
  - by intros f ->.
  - by intros fs ->.
  - intros data. destruct (defaultTransform_total data) as [value Hv].
    exists value. split; [done|].
    cbn [transformData]. rewrite Hv.
    destruct (transformResponse (axiosConfig (resolvedConfig args))) as [|f|fs];
      cbn [transformData]; [done | by destruct (f value) | done].
Qed.

End ResponseTransform.

Lemma C8_response_normalization_witness :
  defaultTransform read_json (JString id_1_body) = Normal (JObject [("id", JNumber 1)])
  /\ defaultTransform read_json (JString "not json") = Normal (JString "not json")
  /\ transformData
       (defaults_transformResponse (core_instance read_json (ObjectConfig quiet_config)
                                      sample_world))
       (JString id_1_body)
     = Normal (JArray [JObject [("id", JNumber 1)]]).
Proof.
  pose proof (C8_response_normalization read_json (ObjectConfig quiet_config) sample_world)
    as (Hparsed & Hraw & _ & _ & _ & _ & _ & Hchain).
  split; [apply Hparsed; reflexivity|].
  split; [apply (Hraw _ "SyntaxError"); reflexivity|].
  destruct (Hchain (JString id_1_body)) as (normalized & Hn & ->).
  rewrite (Hparsed id_1_body (JObject [("id", JNumber 1)]) eq_refl) in Hn.
  injection Hn as <-. reflexivity.
Defined.

(** * Further properties of the interceptor *)

(** ** Headers the interceptor does not manage *)

(** X1. A header whose name is none of the four managed names leaves the
    interceptor as it entered: absent if it was absent, with the same value
    otherwise.  With the transaction id configured under another name,
    [X-Transaction-ID] is such a header. *)
Theorem unmanaged_header_untouched (txn : string) (dis en use : bool) (svc : option string)
    (otel : bool) (config : InternalAxiosRequestConfig) (w : World) (k : string) :
  k <> txn -> k <> "traceparent" -> k <> "X-Trace-ID" -> k <> "X-Source-Service" ->
  sent_headers (requestInterceptor txn dis en use svc otel config w).1 !! k
  = sent_headers config !! k.
Proof.
  intros H1 H2 H3 H4.
  destruct (requestInterceptor_pipeline txn dis en use svc otel config w) as (x2 & x3 & ->).
  by rewrite !set_if_falsy_lookup_ne.
Qed.

Lemma unmanaged_header_untouched_witness :
  sent_headers (requestInterceptor "X-Request-ID" false true true (Some "SVC") true
                  (mkRequest "/users" None) span_world).1 !! "X-Transaction-ID"
  = None.
Proof.
  apply (unmanaged_header_untouched "X-Request-ID" false true true (Some "SVC") true
           (mkRequest "/users" None) span_world "X-Transaction-ID"); discriminate.
Defined.

(** ** The interceptor only adds *)

Lemma set_if_falsy_dom p c key x (h : gmap string string) :
  dom h ⊆ dom (set_if_falsy p c key x h)
  /\ dom (set_if_falsy p c key x h) ⊆ {[key]} ∪ dom h
  /\ (size (set_if_falsy p c key x h) <= S (size h))%nat.
Proof.
  unfold set_if_falsy. destruct (c && _).
  - rewrite dom_insert_L, map_size_insert.
    split; [set_solver|]. split; [set_solver|]. destruct (h !! key); simpl; lia.
  - split; [done|]. split; [set_solver | lia].
Qed.

Lemma subseteq_step (X Y S : gset string) (a : string) :
  X ⊆ {[a]} ∪ Y -> a ∈ S -> Y ⊆ S -> X ⊆ S.
Proof.
  intros HX Ha HY k Hk. apply HX, elem_of_union in Hk as [Hk|Hk].
  - apply elem_of_singleton in Hk. by subst.
  - by apply HY.
Qed.

(** X2. The interceptor never removes a header and adds none but the four
    managed ones: a request leaves with every header name it came with, and
    with at most four more. *)
Theorem interceptor_only_adds (txn : string) (dis en use : bool) (svc : option string)
    (otel : bool) (config : InternalAxiosRequestConfig) (w : World) :
  let sent := sent_headers (requestInterceptor txn dis en use svc otel config w).1 in
  dom (sent_headers config) ⊆ dom sent
  /\ dom sent ⊆ managed_names txn ∪ dom (sent_headers config)
  /\ (size sent <= size (sent_headers config) + 4)%nat.
Proof.
  intros sent. subst sent.
  destruct (requestInterceptor_pipeline txn dis en use svc otel config w) as (x2 & x3 & ->).
  set (h0 := sent_headers config).
  set (p := header_prototype w).
  set (c1 := en && bool_decide (is_Some (activeTraceId otel w))).
  set (x1 := default "" (activeTraceId otel w)).
  destruct (set_if_falsy_dom p c1 "X-Trace-ID" x1 h0) as (A1 & B1 & S1).
  set (h1 := set_if_falsy p c1 "X-Trace-ID" x1 h0) in *.
  destruct (set_if_falsy_dom p en "traceparent" x2 h1) as (A2 & B2 & S2).
  set (h2 := set_if_falsy p en "traceparent" x2 h1) in *.
  destruct (set_if_falsy_dom p (negb dis) txn x3 h2) as (A3 & B3 & S3).
  set (h3 := set_if_falsy p (negb dis) txn x3 h2) in *.
  destruct (set_if_falsy_dom p (truthy svc) "X-Source-Service" (default "" svc) h3)
    as (A4 & B4 & S4).
  clearbody h0 h1 h2 h3.
  split; [by do 3 (etrans; [eassumption|])|]. split; [|lia].
  unfold managed_names.
  apply (subseteq_step _ _ _ _ B4); [set_solver|].
  apply (subseteq_step _ _ _ _ B3); [set_solver|].
  apply (subseteq_step _ _ _ _ B2); [set_solver|].
  apply (subseteq_step _ _ _ _ B1); [set_solver|].
  apply union_subseteq_r.
Qed.

(** ** What one run draws from the host *)

(** X3. One run queries the active span exactly once when an OpenTelemetry API
    was found and never otherwise; draws exactly 24 random octets when trace
    context is enabled and no [traceparent] is pre-set, and none otherwise;
    calls [uuidv4()] at most once, and never when the transaction id is
    disabled; and leaves the tapes themselves alone. *)
Theorem interceptor_draws (txn : string) (dis en use : bool) (svc : option string)
    (otel : bool) (config : InternalAxiosRequestConfig) (w : World) :
  let w' := (requestInterceptor txn dis en use svc otel config w).2 in
  spans_probed w' = (spans_probed w + if otel then 1 else 0)%nat
  /\ octets_drawn w'
     = (octets_drawn w
        + if en && negb (truthy (sent_headers config !! "traceparent")) then 24 else 0)%nat
  /\ (uuids_drawn w <= uuids_drawn w' <= uuids_drawn w + 1)%nat
  /\ (dis = true -> uuids_drawn w' = uuids_drawn w)
  /\ same_tapes w w'.
Proof.
  intros w'. subst w'.
  destruct (requestInterceptor_world txn dis en use svc otel config w)
    as (drew & -> & Hdis & _).
  assert (Hdrew : dis = true -> drew = false) by done. clear Hdis.
  unfold same_tapes.
  destruct drew, (en && negb (truthy (sent_headers config !! "traceparent"))), otel;
    cbn; repeat split; try lia; intros Hd; by specialize (Hdrew Hd).
Qed.

(** ** Clients built without options *)

Lemma run_chain_single (f : InternalAxiosRequestConfig -> M InternalAxiosRequestConfig)
    config w :
  run_chain [f] config w = f config w.
Proof. cbn [run_chain]. run_M. by destruct (f config w). Qed.

Lemma set_if_falsy_false p key x (h : gmap string string) :
  set_if_falsy p false key x h = h.
Proof. done. Qed.

Lemma plain_interceptor_run txn otel config w :
  header_truthy (header_prototype w) (sent_headers config) txn = false ->
  requestInterceptor txn false false false None otel config w
  = (mkRequest (url config)
       (Some (<[txn := uuid_tape w (uuids_drawn w)]> (sent_headers config))),
     advance_uuids (if otel then advance_spans w else w)).
Proof.
  intros Hfalsy. rewrite requestInterceptor_unfold.
  rewrite injectTransactionId_spec, injectTraceparent_spec. cbn [andb fst snd].
  rewrite useActiveSpan_headers, useActiveSpan_world. cbn [andb truthy].
  rewrite !set_if_falsy_false.
  assert (header_prototype (if otel then advance_spans w else w) = header_prototype w)
    as -> by (by destruct otel).
  rewrite Hfalsy. cbn [negb andb fst snd].
  by destruct otel.
Qed.

(** X4. A client built from an axios configuration alone - through the
    deprecated positional overload or through an object configuration with
    no option set - installs one interceptor, and a request that carries no
    [X-Transaction-ID] leaves with exactly one more header, [X-Transaction-ID],
    holding the next identifier of [uuidv4()]; no random octet is drawn. *)
Theorem plain_client_adds_transaction_id (JSON_parse : string -> Completion JSValue)
    (axiosCfg : AxiosRequestConfig) (hooks : option (AxiosInstance -> AxiosInstance))
    (w : World) (request : InternalAxiosRequestConfig) (w' : World) :
  truthy (sent_headers request !! "X-Transaction-ID") = false ->
  let inst := core_instance JSON_parse (LegacyArgs axiosCfg hooks) w in
  inst = core_instance JSON_parse
           (ObjectConfig (mkConfig axiosCfg hooks None None None None None)) w
  /\ length (request_interceptors inst) = 1%nat
  /\ sent_headers (dispatch inst request w').1
     = <["X-Transaction-ID" := uuid_tape w' (uuids_drawn w')]> (sent_headers request)
  /\ octets_drawn (dispatch inst request w').2 = octets_drawn w'
  /\ uuids_drawn (dispatch inst request w').2 = S (uuids_drawn w').
Proof.
  intros Hfalsy inst. subst inst.
  split; [done|]. split; [done|].
  unfold dispatch, core_instance. cbn [resolvedConfig shouldAddInterceptor negb orb
    from_option id transactionIdHeader disableTransactionId enableTraceContext
    useTraceIdAsTransactionId serviceName axiosConfig].
  cbn [request_interceptors interceptors_request_use axios_create app rev].
  rewrite run_chain_single, plain_interceptor_run
    by (by rewrite header_truthy_own by apply transaction_id_own).
  cbn [fst snd sent_headers headers from_option id].
  by destruct (getOTelAPI w).
Qed.

Lemma plain_client_adds_transaction_id_witness :
  sent_headers
    (dispatch (core_instance read_json (LegacyArgs (mkAxiosConfig None NoTransform) None)
                 sample_world)
       (mkRequest "/users" (Some {["Accept" := "text/plain"]})) sample_world).1
  = <["X-Transaction-ID" := "3fa85f64-5717-4562-b3fc-2c963f66afa6"]>
      {["Accept" := "text/plain"]}.
Proof.
  exact (proj1 (proj2 (proj2
    (plain_client_adds_transaction_id read_json (mkAxiosConfig None NoTransform) None
       sample_world (mkRequest "/users" (Some {["Accept" := "text/plain"]}))
       sample_world eq_refl)))).
Defined.

(** ** The service name *)



(** ** Sending a request through the interceptor again *)

Lemma header_truthy_stable p (k key : string) :
  stable p (fun h => header_truthy p h k = true) key.
Proof.
  intros c x h Hk. unfold set_if_falsy.
  destruct (decide (key = k)) as [->|Hne].
  - by rewrite Hk, andb_false_r.
  - destruct (c && _); [by rewrite header_truthy_insert_ne | done].
Qed.

Lemma set_if_falsy_skip p c key x (h : gmap string string) :
  (c = true -> header_truthy p h key = true) -> set_if_falsy p c key x h = h.
Proof.
  intros H. unfold set_if_falsy. destruct c; [|done]. by rewrite H.
Qed.

Lemma header_truthy_inserted p (h : gmap string string) key x :
  x <> "" -> header_truthy p (<[key := x]> h) key = true.
Proof.
  intros Hx. rewrite (header_truthy_Some _ _ _ x) by apply lookup_insert_eq.
  by apply truthy_Some_nonempty.
Qed.

Lemma set_if_falsy_truthy p key x (h : gmap string string) :
  x <> "" -> header_truthy p (set_if_falsy p true key x h) key = true.
Proof.
  intros Hx. unfold set_if_falsy. cbn [andb].
  destruct (header_truthy p h key) eqn:Ht; cbn [negb]; [done|].
  by apply header_truthy_inserted.
Qed.

Lemma traceparent_truthy w :
  truthy (Some (traceparent (generateTraceparent w).1)) = true.
Proof. rewrite generateTraceparent_unfold. by apply truthy_Some_nonempty. Qed.

Lemma injectTraceparent_truthy p t h w :
  header_truthy p (injectTraceparent true t h w).1.2 "traceparent" = true.
Proof.
  rewrite header_truthy_traceparent, injectTraceparent_spec. cbn [andb].
  destruct (truthy (h !! "traceparent")) eqn:Ht; cbn [negb fst snd]; [done|].
  rewrite lookup_insert_eq. apply traceparent_truthy.
Qed.

Lemma injectTransactionId_truthy txn use t h w :
  uuid_tape w (uuids_drawn w) <> "" ->
  header_truthy (header_prototype w) (injectTransactionId txn false use t h w).1 txn = true.
Proof.
  intros Huuid. rewrite injectTransactionId_spec. cbn [negb andb].
  destruct (header_truthy (header_prototype w) h txn) eqn:Ht; cbn [negb fst]; [done|].
  destruct (use && truthy t) eqn:E; cbn [fst]; apply header_truthy_inserted; [|done].
  apply andb_true_iff in E as [_ E]. destruct t as [t|]; [|done].
  cbn [from_option id]. intros ->. done.
Qed.

Lemma first_run_fills txn dis en use svc otel config w :
  uuid_tape w (uuids_drawn w) <> "" ->
  let h' := sent_headers (requestInterceptor txn dis en use svc otel config w).1 in
  let p := header_prototype w in
  (en = true -> header_truthy p h' "traceparent" = true)
  /\ (dis = false -> header_truthy p h' txn = true)
  /\ (truthy svc = true -> header_truthy p h' "X-Source-Service" = true).
Proof.
  intros Huuid h' p. subst h'.
  rewrite requestInterceptor_unfold. cbn [fst sent_headers headers from_option id].
  set (r1 := useActiveSpan en otel _ w).
  set (r2 := injectTraceparent en r1.1.1 r1.1.2 r1.2).
  assert (Hp : header_prototype r2.2 = p)
    by (subst r2 r1; apply transaction_block_prototype).
  assert (Etape : uuid_tape r2.2 (uuids_drawn r2.2) = uuid_tape w (uuids_drawn w)).
  { assert (uuid_tape r2.2 = uuid_tape r1.2 /\ uuids_drawn r2.2 = uuids_drawn r1.2)
      as [-> ->] by apply injectTraceparent_uuids.
    assert (uuid_tape r1.2 = uuid_tape w /\ uuids_drawn r1.2 = uuids_drawn w)
      as [-> ->] by apply useActiveSpan_uuids.
    done. }
  fold p.
  split; [|split].
  - intros ->. apply header_truthy_stable.
    destruct (injectTransactionId_fill txn dis use r2.1.1 r2.1.2 r2.2) as [x3 ->].
    rewrite Hp. apply header_truthy_stable. subst r2. apply injectTraceparent_truthy.
  - intros ->. apply header_truthy_stable. rewrite <- Hp.
    apply injectTransactionId_truthy. by rewrite Etape.
  - intros Hsvc. rewrite Hsvc. apply set_if_falsy_truthy.
    destruct svc as [name|]; [|done]. cbn in Hsvc |- *.
    intros ->. done.
Qed.

(** X6. A request that has been through the interceptor and is sent through
    it again (a retry) keeps every header except possibly [X-Trace-ID], and
    no further random octet or UUID is drawn for it; without an OpenTelemetry
    API the second pass changes nothing at all.  (The identifier [uuidv4()]
    returns is assumed non-empty, as every UUID is.) *)
Theorem interceptor_rerun (txn : string) (dis en use : bool) (svc : option string)
    (otel : bool) (config : InternalAxiosRequestConfig) (w : World) :
  uuid_tape w (uuids_drawn w) <> "" ->
  let first := requestInterceptor txn dis en use svc otel config w in
  let second := requestInterceptor txn dis en use svc otel first.1 first.2 in
  (forall k, k <> "X-Trace-ID" ->
             sent_headers second.1 !! k = sent_headers first.1 !! k)
  /\ octets_drawn second.2 = octets_drawn first.2
  /\ uuids_drawn second.2 = uuids_drawn first.2
  /\ (otel = false -> second = first).
Proof.
  intros Huuid first second.
  destruct (first_run_fills txn dis en use svc otel config w Huuid) as (F1 & F2 & F3).
  fold first in F1, F2, F3.
  set (h' := sent_headers first.1) in *.
  set (p := header_prototype w) in *.
  assert (Hp : header_prototype first.2 = p).
  { subst first. apply requestInterceptor_prototype. }
  assert (Hfirst : first.1 = mkRequest (url config) (Some h')).
  { subst h' first. by rewrite requestInterceptor_unfold. }
  set (s := useActiveSpan en otel h' first.2).
  assert (Hps : header_prototype s.2 = p)
    by (subst s; by rewrite useActiveSpan_prototype).
  assert (Hkeep : forall k, header_truthy p h' k = true -> header_truthy p s.1.2 k = true).
  { intros k Hk. subst s. rewrite useActiveSpan_headers, Hp.
    by apply header_truthy_stable. }
  assert (Hsecond : second = (mkRequest (url config) (Some s.1.2), s.2)).
  { subst second. rewrite requestInterceptor_unfold, Hfirst.
    cbn [sent_headers headers from_option id url]. fold s.
    rewrite injectTraceparent_spec.
    assert (en && negb (truthy (s.1.2 !! "traceparent")) = false) as ->.
    { destruct en; [|done]. rewrite <- (header_truthy_traceparent p).
      by rewrite Hkeep by auto. }
    cbn [fst snd]. rewrite injectTransactionId_spec.
    assert (negb dis && negb (header_truthy (header_prototype s.2) s.1.2 txn) = false) as ->.
    { destruct dis; [done|]. rewrite Hps. by rewrite Hkeep by auto. }
    cbn [fst snd]. rewrite Hp, set_if_falsy_skip; [done|].
    intros Hsvc. auto. }
  rewrite Hsecond. cbn [fst snd sent_headers headers from_option id].
  split; [|split; [|split]].
  - intros k Hk. subst s. by rewrite useActiveSpan_headers, set_if_falsy_lookup_ne.
  - subst s. rewrite useActiveSpan_world. by destruct otel.
  - subst s. rewrite useActiveSpan_world. by destruct otel.
  - intros ->. subst s. rewrite useActiveSpan_spec. cbn [fst snd].
    rewrite <- Hfirst. by destruct first.
Qed.

Lemma interceptor_rerun_witness :
  requestInterceptor "X-Transaction-ID" false true true (Some "SVC") false
    (requestInterceptor "X-Transaction-ID" false true true (Some "SVC") false
       (mkRequest "/users" None) sample_world).1
    (requestInterceptor "X-Transaction-ID" false true true (Some "SVC") false
       (mkRequest "/users" None) sample_world).2
  = requestInterceptor "X-Transaction-ID" false true true (Some "SVC") false
      (mkRequest "/users" None) sample_world.
Proof.
  refine (proj2 (proj2 (proj2
    (interceptor_rerun "X-Transaction-ID" false true true (Some "SVC") false
       (mkRequest "/users" None) sample_world _))) eq_refl).
  discriminate.
Defined.

(** ** Correlating the transaction id with the trace *)

Lemma hex_of_octets_truthy w n :
  n <> 0%nat -> truthy (Some (hex_of (octets w n))) = true.
Proof.
  intros Hn. apply truthy_Some_nonempty. intros Hempty.
  pose proof (hex_of_length (octets w n) (octets_range w n)) as Hlen.
  rewrite Hempty, length_octets in Hlen. simpl in Hlen. lia.
Qed.

(** X7. With trace context enabled, [useTraceIdAsTransactionId] set and no
    active span, a request that pre-sets neither header leaves with a
    transaction id equal to the trace-id segment of its [traceparent]: the
    32 hexadecimal characters between the first and the second hyphen.
    (Transaction-id header configured under a name of its own, and not under
    one the header object inherits a member under, such as [constructor].) *)
Theorem transaction_id_is_traceparent_segment (txn : string) (svc : option string)
    (otel : bool) (config : InternalAxiosRequestConfig) (w : World) :
  txn <> "traceparent" -> txn <> "X-Trace-ID" -> txn <> "X-Source-Service" ->
  inherits (header_prototype w) txn = false ->
  truthy (sent_headers config !! txn) = false ->
  truthy (sent_headers config !! "traceparent") = false ->
  activeTraceId otel w = None ->
  let sent := sent_headers (requestInterceptor txn false true true svc otel config w).1 in
  exists traceId parentId,
    matches (replicate 32 LowerHex) traceId = true
    /\ matches (replicate 16 LowerHex) parentId = true
    /\ sent !! "traceparent" = Some ("00-" +:+ traceId +:+ "-" +:+ parentId +:+ "-01")
    /\ sent !! txn = Some traceId.
Proof.
  intros H1 H2 H3 Hown Htxn Htp Hspan sent. subst sent.
  exists (hex_of (octets w 16)), (hex_of (octets (advance_octets 16 w) 8)).
  pose proof (hex_of_matches _ (octets_range w 16)) as Ht.
  pose proof (hex_of_matches _ (octets_range (advance_octets 16 w) 8)) as Hp.
  rewrite length_octets in Ht, Hp.
  split; [done|]. split; [done|]. split.
  - rewrite traceparent_header_value by done. by rewrite generateTraceparent_unfold.
  - rewrite transaction_header_value by done.
    rewrite observedTraceId_spec, Hspan, Htp. cbn [negb andb].
    by rewrite hex_of_octets_truthy.
Qed.

Lemma transaction_id_is_traceparent_segment_witness :
  exists traceId parentId,
    matches (replicate 32 LowerHex) traceId = true
    /\ matches (replicate 16 LowerHex) parentId = true
    /\ sent_headers (requestInterceptor "X-Transaction-ID" false true true None false
                       (mkRequest "/users" None) sample_world).1 !! "traceparent"
       = Some ("00-" +:+ traceId +:+ "-" +:+ parentId +:+ "-01")
    /\ sent_headers (requestInterceptor "X-Transaction-ID" false true true None false
                       (mkRequest "/users" None) sample_world).1 !! "X-Transaction-ID"
       = Some traceId.
Proof.
  apply (transaction_id_is_traceparent_segment "X-Transaction-ID" None false
           (mkRequest "/users" None) sample_world);
    [discriminate | discriminate | discriminate | reflexivity..].
Defined.

(** X8. While a span is active, the transaction id (with
    [useTraceIdAsTransactionId]) and [X-Trace-ID] carry the span's trace id,
    but the [traceparent] the interceptor synthesises does not: its trace id
    is drawn from the random source exactly as if there were no span.
    (None of the three headers pre-set; transaction-id header configured
    under a name of its own, and not under one the header object inherits a
    member under, such as [toString].) *)
Theorem active_span_does_not_reach_traceparent (txn : string) (svc : option string)
    (config : InternalAxiosRequestConfig) (w : World) (spanTraceId : string) :
  txn <> "traceparent" -> txn <> "X-Trace-ID" -> txn <> "X-Source-Service" ->
  inherits (header_prototype w) txn = false ->
  truthy (sent_headers config !! txn) = false ->
  truthy (sent_headers config !! "traceparent") = false ->
  truthy (sent_headers config !! "X-Trace-ID") = false ->
  span_tape w (spans_probed w) = ProbeSpan spanTraceId ->
  spanTraceId <> "" ->
  let sent := sent_headers (requestInterceptor txn false true true svc true config w).1 in
  sent !! txn = Some spanTraceId
  /\ sent !! "X-Trace-ID" = Some spanTraceId
  /\ sent !! "traceparent"
     = Some ("00-" +:+ hex_of (octets w 16) +:+ "-"
             +:+ hex_of (octets (advance_octets 16 w) 8) +:+ "-01")
  /\ sent !! "traceparent"
     = sent_headers (requestInterceptor txn false true true svc false config w).1
         !! "traceparent".
Proof.
  intros H1 H2 H3 Hown Htxn Htp Htid Hspan Hne sent. subst sent.
  assert (Hactive : activeTraceId true w = Some spanTraceId)
    by (unfold activeTraceId; by rewrite Hspan).
  split; [|split; [|split]].
  - rewrite transaction_header_value by done.
    rewrite observedTraceId_spec, Hactive. cbn [andb].
    by rewrite truthy_Some_nonempty.
  - destruct (requestInterceptor_pipeline txn false true true svc true config w)
      as (x2 & x3 & ->).
    rewrite !set_if_falsy_lookup_ne by done. rewrite Hactive.
    rewrite set_if_falsy_own by apply trace_id_own.
    rewrite Htid. cbn. by rewrite lookup_insert_eq.
  - rewrite traceparent_header_value by done. by rewrite generateTraceparent_unfold.
  - by rewrite !traceparent_header_value.
Qed.

Lemma active_span_does_not_reach_traceparent_witness :
  sent_headers (requestInterceptor "X-Transaction-ID" false true true None true
                  (mkRequest "/users" None) span_world).1 !! "X-Transaction-ID"
  = Some "0af7651916cd43dd8448eb211c80319c".
Proof.
  refine (proj1 (active_span_does_not_reach_traceparent "X-Transaction-ID" None
                   (mkRequest "/users" None) span_world "0af7651916cd43dd8448eb211c80319c"
                   _ _ _ _ _ _ _ _ _));
    [discriminate | discriminate | discriminate | reflexivity | reflexivity | reflexivity
    | reflexivity | reflexivity | discriminate].
Defined.

(** * Further properties of [randomHex] *)



(** X10. [randomHex] loses nothing of what it draws: within the quota, two
    calls return the same string exactly when the octets they drew are the
    same (two digits per octet, zero-padded, so no two buffers share a
    rendering). *)
Theorem randomHex_injective (len : N) (w1 w2 : World) :
  (len / 2 <= 65536)%N ->
  exists s1 s2,
    (randomHex len w1).1 = Normal s1 /\ (randomHex len w2).1 = Normal s2
    /\ (s1 = s2 <-> octets w1 (N.to_nat (len / 2)) = octets w2 (N.to_nat (len / 2))).
Proof.
  intros Hq. eexists _, _. rewrite !randomHex_value by auto.
  split; [done|]. split; [done|]. split.
  - apply hex_of_inj; apply octets_range.
  - by intros ->.
Qed.

Lemma randomHex_injective_witness :
  exists s1 s2,
    (randomHex 4 sample_world).1 = Normal s1 /\ (randomHex 4 span_world).1 = Normal s2
    /\ (s1 = s2 <-> octets sample_world 2 = octets span_world 2).
Proof.
  apply (randomHex_injective 4 sample_world span_world). by apply N.leb_le.
Defined.

(** X11. The [Math.random] fallback fills every element of the buffer, in
    order, just as [crypto.getRandomValues] does: within the quota, a host
    without [crypto] whose [Math.floor(Math.random() * 256)] yields the values
    a host's [crypto] would, gets the same string. *)
Theorem randomHex_fallback_agrees (len : N) (tape other : nat -> Z)
    (uuids : nat -> string) (installed : bool) (spans : nat -> SpanProbe)
    (proto : Prototype) (drawn issued probed : nat) :
  (len / 2 <= 65536)%N ->
  exists s,
    (randomHex len (mkWorld None tape uuids installed spans proto drawn issued probed)).1
    = Normal s
    /\ (randomHex len
          (mkWorld (Some tape) other uuids installed spans proto drawn issued probed)).1
       = Normal s.
Proof. intros Hq. eexists. by rewrite !randomHex_value by auto. Qed.

Lemma randomHex_fallback_agrees_witness :
  exists s,
    (randomHex 6 (mkWorld None (fun n => Z.of_nat (17 * n + 250)) (fun _ => "") false
                    (fun _ => ProbeNoSpan) sample_prototype 0 0 0)).1 = Normal s
    /\ (randomHex 6 (mkWorld (Some (fun n => Z.of_nat (17 * n + 250))) (fun _ => 0)
                       (fun _ => "") false (fun _ => ProbeNoSpan) sample_prototype 0 0 0)).1
       = Normal s.
Proof.
  apply (randomHex_fallback_agrees 6 (fun n => Z.of_nat (17 * n + 250)) (fun _ => 0)
           (fun _ => "") false (fun _ => ProbeNoSpan) sample_prototype 0 0 0).
  by apply N.leb_le.
Defined.

(** * The constructor *)

(** ** Interceptors installed by [setupHooks] *)

(** X15. A request interceptor that [setupHooks] registers runs before the
    tracing interceptor (axios runs the last registered first): the tracing
    interceptor works on the configuration and the host state the hook
    leaves, so whatever non-empty header the hook sets - an [Authorization],
    or a transaction id of its own under the configured name - is still
    there, unchanged, in the header object the interceptor chain returns. *)
Theorem hook_interceptor_runs_first (JSON_parse : string -> Completion JSValue)
    (cfg : BaseAPIServiceConfig) (w : World)
    (hook : InternalAxiosRequestConfig -> M InternalAxiosRequestConfig)
    (request : InternalAxiosRequestConfig) (w' : World) :
  setupHooks cfg = Some (interceptors_request_use hook) ->
  shouldAddInterceptor (default false (disableTransactionId cfg))
    (default false (enableTraceContext cfg)) (serviceName cfg) = true ->
  let self := createHttpClient JSON_parse cfg w in
  dispatch (instance self) request w'
  = requestInterceptor (default "X-Transaction-ID" (transactionIdHeader cfg))
      (default false (disableTransactionId cfg)) (default false (enableTraceContext cfg))
      (default false (useTraceIdAsTransactionId cfg)) (serviceName cfg) (getOTelAPI w)
      (hook request w').1 (hook request w').2
  /\ forall k v,
       sent_headers (hook request w').1 !! k = Some v -> v <> "" ->
       sent_headers (dispatch (instance self) request w').1 !! k = Some v.
Proof.
  intros Hhooks Hadd self.
  assert (Hrun : dispatch (instance self) request w'
                 = requestInterceptor (default "X-Transaction-ID" (transactionIdHeader cfg))
                     (default false (disableTransactionId cfg))
                     (default false (enableTraceContext cfg))
                     (default false (useTraceIdAsTransactionId cfg)) (serviceName cfg)
                     (getOTelAPI w) (hook request w').1 (hook request w').2).
  { subst self. unfold createHttpClient, new_BaseAPIService, dispatch.
    cbn [instance resolvedConfig]. rewrite Hhooks.
    unfold core_instance. cbn [resolvedConfig]. rewrite Hadd.
    cbn [request_interceptors interceptors_request_use axios_create app rev run_chain].
    unfold mbind at 1, M_bind at 1.
    destruct (hook request w') as [config1 w1]. cbn [fst snd].
    unfold mbind, M_bind, mret, M_ret. by destruct (requestInterceptor _ _ _ _ _ _ _ _). }
  split; [exact Hrun|].
  intros k v Hk Hv. rewrite Hrun.
  by apply (requestInterceptor_invariant (fun h => h !! k = Some v));
    auto using kept_stable.
Qed.

Lemma hook_interceptor_runs_first_witness :
  sent_headers (dispatch (instance (createHttpClient read_json auth_config sample_world))
                  (mkRequest "/users" None) sample_world).1 !! "Authorization"
  = Some "Bearer token".
Proof.
  refine (proj2 (hook_interceptor_runs_first read_json auth_config sample_world
                   auth_interceptor (mkRequest "/users" None) sample_world eq_refl eq_refl)
            "Authorization" "Bearer token" _ _);
    [reflexivity | discriminate].
Defined.

(** ** A transaction-id header named like an inherited member *)




(** ** When the interceptor is installed *)

(** X16. The constructor installs the tracing interceptor unless the
    transaction id is disabled, trace context is off and the service name is
    absent or empty - an empty service name counts as none - and it never
    installs more than one. *)
Theorem interceptor_installed_iff (JSON_parse : string -> Completion JSValue)
    (cfg : BaseAPIServiceConfig) (w : World) :
  let inst := core_instance JSON_parse (ObjectConfig cfg) w in
  (request_interceptors inst = []
   <-> default false (disableTransactionId cfg) = true
       /\ default false (enableTraceContext cfg) = false
       /\ (serviceName cfg = None \/ serviceName cfg = Some ""))
  /\ (length (request_interceptors inst) <= 1)%nat.
Proof.
  intros inst. subst inst. unfold core_instance, shouldAddInterceptor.
  cbn [resolvedConfig].
  destruct (default false (disableTransactionId cfg)) eqn:Hd,
           (default false (enableTraceContext cfg)) eqn:He;
    cbn [negb orb request_interceptors interceptors_request_use axios_create app length];
    try (split; [split; [discriminate | intros (? & ? & ?); discriminate] | lia]).
  destruct (serviceName cfg) as [name|]; cbn [truthy].
  - destruct (String.eqb_spec name "") as [->|Hne];
      cbn [negb request_interceptors interceptors_request_use axios_create app length].
    + split; [split; [intros _; auto | done] | lia].
    + split; [|lia]. split; [discriminate|].
      intros (_ & _ & [H|H]); [discriminate | congruence].
  - cbn [request_interceptors axios_create length]. split; [|lia].
    split; [intros _; auto | done].
Qed.
